(** * The git backend of [vcs_support]: a shallow embedding

    Source: [readthedocs/vcs_support/backends/git.py] (Python 2).

    Definitions come first.
    - [PyStr]: the [str] methods the backend calls ([strip], [split],
      [replace], [startswith], slicing) and [os.path.join].
    - [Csv]: the record reader behind [csv.reader(StringIO(data),
      delimiter=' ')], as a state machine over the characters of a line.
    - [Git]: the backend itself.  The two parsers are pure; the
      synchronisation methods run in a small state-and-exception monad over an
      abstract host (command runner and file system) and leave a log of every
      external call they make.  [Git.Scripted] is a host that can be run.
    - [Spec]: the vocabulary of the statements.

    The properties follow: [PyStrProps] and [CsvProps] for the strings and the
    reader, [GitProps] for the backend; then more of each: [StripProps],
    [SyncProps], [ParserProps], [ReaderProps], [PlainProps], [ListingProps],
    with [MoreExamples] on the scripted host; [TrimProps] for the URL
    comparison and [LineProps] for the branch listing line by line. *)

From Stdlib Require Import String Ascii List ZArith Bool Lia DecimalString.
Import ListNotations.

Local Open Scope list_scope.
Local Open Scope string_scope.

(** ** Python [str] operations *)

Module PyStr.

(** Truth value of a [str]: only the empty string is false. *)
Definition nonempty (s : string) : bool :=
  match s with EmptyString => false | String _ _ => true end.

(** [str(n)] / ['%s' % n] for an [int]. *)
Definition str_of_int (n : Z) : string :=
  NilEmpty.string_of_int (Z.to_int n).

(** [c.isspace()] in the C locale: space, TAB, LF, VT, FF, CR. *)
Definition isspace (c : ascii) : bool :=
  let n := nat_of_ascii c in
  Nat.eqb n 32 || (Nat.leb 9 n && Nat.leb n 13).

(** [s.lstrip()] *)
Fixpoint lstrip (s : string) : string :=
  match s with
  | EmptyString => EmptyString
  | String c s' => if isspace c then lstrip s' else s
  end.

(** [s.rstrip()] *)
Fixpoint rstrip (s : string) : string :=
  match s with
  | EmptyString => EmptyString
  | String c s' =>
      match rstrip s' with
      | EmptyString => if isspace c then EmptyString else String c EmptyString
      | t => String c t
      end
  end.

(** [s.strip()] *)
Definition strip (s : string) : string := rstrip (lstrip s).

(** [s.split(sep)] for a one-character separator: never an empty list. *)
Fixpoint split (sep : ascii) (s : string) : list string :=
  match s with
  | EmptyString => [EmptyString]
  | String c s' =>
      if Ascii.eqb c sep then EmptyString :: split sep s'
      else match split sep s' with
           | [] => [String c EmptyString]
           | w :: ws => String c w :: ws
           end
  end.

(** [l[-1]] on a list known to be non-empty ([split] never returns []). *)
Definition last_item (l : list string) : string := List.last l EmptyString.

(** [s.replace(old, new)] for one-character [old] and [new]. *)
Fixpoint replace (old new : ascii) (s : string) : string :=
  match s with
  | EmptyString => EmptyString
  | String c s' =>
      String (if Ascii.eqb c old then new else c) (replace old new s')
  end.

(** [s.startswith(p)] *)
Definition startswith (s p : string) : bool := String.prefix p s.

(** [s[n:]] *)
Fixpoint drop (n : nat) (s : string) : string :=
  match n, s with
  | O, _ => s
  | S _, EmptyString => EmptyString
  | S n', String _ s' => drop n' s'
  end.

(** [s.endswith('/')] *)
Fixpoint ends_with_slash (s : string) : bool :=
  match s with
  | EmptyString => false
  | String c EmptyString => Ascii.eqb c "/"
  | String _ s' => ends_with_slash s'
  end.

(** [posixpath.join(a, b)] *)
Definition pjoin (a b : string) : string :=
  if startswith b "/" then b
  else if negb (nonempty a) || ends_with_slash a then a ++ b
  else a ++ "/" ++ b.

(** [iter(StringIO(data))]: the lines of [data], each keeping its
    terminating LF; a last line without LF is delivered as it is. *)
Fixpoint readlines_from (cur : string) (s : string) : list string :=
  match s with
  | EmptyString => if nonempty cur then [cur] else []
  | String c s' =>
      if Ascii.eqb c "010" then (cur ++ String c EmptyString) :: readlines_from EmptyString s'
      else readlines_from (cur ++ String c EmptyString) s'
  end.

Definition readlines (data : string) : list string :=
  readlines_from EmptyString data.

End PyStr.

(** ** Exceptions and outcomes *)

Inductive Exception : Type :=
| ProjectImportError (msg : string)
| ValueError (msg : string)
| CsvError (msg : string)
| OSError (msg : string).

Inductive Outcome (A : Type) : Type :=
| Ok (a : A)
| Raised (e : Exception).

Arguments Ok {A} a.
Arguments Raised {A} e.

(** ** The [csv] reader

    [csv.reader(f, delimiter=d)] under the default (excel) dialect: quote
    character (the double quote), doubled quotes inside a quoted field, no escape character,
    no skipping of initial spaces, not strict.  The states and transitions are
    those of the reader's character automaton; the two states that only an
    escape character can enter are left out.  The end of every line is
    signalled to the automaton by the character NUL, and a NUL inside a line
    is an error. *)

Module Csv.

Inductive ParserState : Type :=
| START_RECORD
| START_FIELD
| IN_FIELD
| IN_QUOTED_FIELD
| QUOTE_IN_QUOTED_FIELD
| EAT_CRNL.

Definition state_eqb (a b : ParserState) : bool :=
  match a, b with
  | START_RECORD, START_RECORD
  | START_FIELD, START_FIELD
  | IN_FIELD, IN_FIELD
  | IN_QUOTED_FIELD, IN_QUOTED_FIELD
  | QUOTE_IN_QUOTED_FIELD, QUOTE_IN_QUOTED_FIELD
  | EAT_CRNL, EAT_CRNL => true
  | _, _ => false
  end.

Record Reader : Type := mkReader {
  state : ParserState;
  fields : list string;   (* fields of the record read so far *)
  field : string          (* characters of the field being read *)
}.

Definition NUL : ascii := "000"%char.
Definition LF : ascii := "010"%char.
Definition CR : ascii := "013"%char.
Definition quotechar : ascii := "034"%char.

(** [csv.field_size_limit()], 128 KiB unless the process changed it. *)
Definition default_field_limit : Z := 131072.

Definition is_eol (c : ascii) : bool := Ascii.eqb c LF || Ascii.eqb c CR.

Definition parse_reset : Reader :=
  {| state := START_RECORD; fields := []; field := EmptyString |}.

Definition set_state (r : Reader) (s : ParserState) : Reader :=
  {| state := s; fields := fields r; field := field r |}.

Definition parse_save_field (r : Reader) : Reader :=
  {| state := state r; fields := (fields r ++ [field r])%list; field := EmptyString |}.

Section Automaton.

Variable field_limit : Z.
Variable delimiter : ascii.

Definition parse_add_char (r : Reader) (c : ascii) : Outcome Reader :=
  if (field_limit <=? Z.of_nat (String.length (field r)))%Z
  then Raised (CsvError ("field larger than field limit ("
                         ++ PyStr.str_of_int field_limit ++ ")"))
  else Ok {| state := state r; fields := fields r;
             field := field r ++ String c EmptyString |}.

Definition add_char_then (r : Reader) (c : ascii) (s : ParserState)
  : Outcome Reader :=
  match parse_add_char r c with
  | Ok r' => Ok (set_state r' s)
  | Raised e => Raised e
  end.

(** What [START_FIELD] does with [c]; [START_RECORD] falls through to it
    on an ordinary character. *)
Definition start_field (r : Reader) (c : ascii) : Outcome Reader :=
  if is_eol c || Ascii.eqb c NUL then
    Ok (set_state (parse_save_field r)
                  (if Ascii.eqb c NUL then START_RECORD else EAT_CRNL))
  else if Ascii.eqb c quotechar then Ok (set_state r IN_QUOTED_FIELD)
  else if Ascii.eqb c delimiter then Ok (set_state (parse_save_field r) START_FIELD)
  else add_char_then r c IN_FIELD.

Definition parse_process_char (r : Reader) (c : ascii) : Outcome Reader :=
  match state r with
  | START_RECORD =>
      if Ascii.eqb c NUL then Ok r
      else if is_eol c then Ok (set_state r EAT_CRNL)
      else start_field r c
  | START_FIELD => start_field r c
  | IN_FIELD =>
      if is_eol c || Ascii.eqb c NUL then
        Ok (set_state (parse_save_field r)
                      (if Ascii.eqb c NUL then START_RECORD else EAT_CRNL))
      else if Ascii.eqb c delimiter then
        Ok (set_state (parse_save_field r) START_FIELD)
      else parse_add_char r c
  | IN_QUOTED_FIELD =>
      if Ascii.eqb c NUL then Ok r
      else if Ascii.eqb c quotechar then Ok (set_state r QUOTE_IN_QUOTED_FIELD)
      else parse_add_char r c
  | QUOTE_IN_QUOTED_FIELD =>
      if Ascii.eqb c quotechar then add_char_then r c IN_QUOTED_FIELD
      else if Ascii.eqb c delimiter then
        Ok (set_state (parse_save_field r) START_FIELD)
      else if is_eol c || Ascii.eqb c NUL then
        Ok (set_state (parse_save_field r)
                      (if Ascii.eqb c NUL then START_RECORD else EAT_CRNL))
      else add_char_then r c IN_FIELD
  | EAT_CRNL =>
      if is_eol c then Ok r
      else if Ascii.eqb c NUL then Ok (set_state r START_RECORD)
      else Raised (CsvError
                   "new-line character seen in unquoted field - do you need to open the file in universal-newline mode?")
  end.

(** The characters of one line, in order. *)
Fixpoint feed (r : Reader) (line : string) : Outcome Reader :=
  match line with
  | EmptyString => Ok r
  | String c rest =>
      if Ascii.eqb c NUL then Raised (CsvError "line contains NULL byte")
      else match parse_process_char r c with
           | Ok r' => feed r' rest
           | Raised e => Raised e
           end
  end.

(** One line and the end-of-line signal after it. *)
Definition feed_line (r : Reader) (line : string) : Outcome Reader :=
  match feed r line with
  | Ok r' => parse_process_char r' NUL
  | Raised e => Raised e
  end.

(** The records the reader delivers from [lines], in order, and the error
    that ends the iteration if there is one.  The reader is lazy: the
    records before an error have been delivered when it is raised.  A
    record is complete when the automaton is back in [START_RECORD]; at
    the end of the input an unfinished quoted field closes the last
    record. *)
Fixpoint records (r : Reader) (lines : list string)
  : list (list string) * option Exception :=
  match lines with
  | [] =>
      if PyStr.nonempty (field r) || state_eqb (state r) IN_QUOTED_FIELD
      then ([fields (parse_save_field r)], None)
      else ([], None)
  | line :: rest =>
      match feed_line r line with
      | Raised e => ([], Some e)
      | Ok r' =>
          if state_eqb (state r') START_RECORD
          then let (rows, err) := records parse_reset rest in
               (fields r' :: rows, err)
          else records r' rest
      end
  end.

End Automaton.

(** [csv.reader(StringIO(data), delimiter=delimiter)] *)
Definition reader (delimiter : ascii) (data : string)
  : list (list string) * option Exception :=
  records default_field_limit delimiter parse_reset (PyStr.readlines data).

End Csv.

(** ** The backend *)

Module Git.

(** The attributes [BaseVCS.__init__] copies from the project.
    [default_branch] may be [None]. *)
Record Backend : Type := mkBackend {
  name : string;
  default_branch : option string;
  working_dir : string;
  repo_url : string
}.

(** [VCSVersion(repository, identifier, verbose_name)] *)
Record VCSVersion : Type := mkVCSVersion {
  repository : Backend;
  identifier : string;
  verbose_name : string
}.

Definition fallback_branch : string := "master".

(** [x or y] where [x] is [None] or a [str]. *)
Definition py_or (x : option string) (y : string) : string :=
  match x with
  | Some s => if PyStr.nonempty s then s else y
  | None => y
  end.

(** *** Output parsers *)

(** [filter(lambda f: f != '', row)] *)
Definition drop_empty (row : list string) : list string :=
  filter (fun f => negb (String.eqb f "")) row.

(** [filter(lambda f: f != '' and f != '*', branch)] *)
Definition drop_empty_and_star (row : list string) : list string :=
  filter (fun f => negb (String.eqb f "") && negb (String.eqb f "*")) row.

(** [commit_hash, name = row] *)
Definition unpack2 (row : list string) : Outcome (string * string) :=
  match row with
  | [a; b] => Ok (a, b)
  | [] => Raised (ValueError "need more than 0 values to unpack")
  | [_] => Raised (ValueError "need more than 1 value to unpack")
  | _ => Raised (ValueError "too many values to unpack")
  end.

(** The body of the [for row in raw_tags] loop, run over the records the
    reader delivers; [stop] is the error that ends the iteration, raised
    once the records before it have been handled. *)
Fixpoint parse_tags_loop (self : Backend) (raw_tags : list (list string))
         (stop : option Exception) (vcs_tags : list VCSVersion)
  : Outcome (list VCSVersion) :=
  match raw_tags with
  | [] => match stop with
          | Some e => Raised e
          | None => Ok vcs_tags
          end
  | row :: rest =>
      let row := drop_empty row in
      match row with
      | [] => parse_tags_loop self rest stop vcs_tags
      | _ =>
          match unpack2 row with
          | Raised e => Raised e
          | Ok (commit_hash, name) =>
              let clean_name := PyStr.last_item (PyStr.split "/" name) in
              parse_tags_loop self rest stop
                (vcs_tags ++ [mkVCSVersion self commit_hash clean_name])%list
          end
      end
  end.

Definition parse_tags (self : Backend) (data : string)
  : Outcome (list VCSVersion) :=
  let (raw_tags, stop) := Csv.reader " " data in
  parse_tags_loop self raw_tags stop [].

(** What one record of the branch listing appends to [clean_branches]. *)
Definition parse_branch (self : Backend) (branch : list string)
  : list VCSVersion :=
  match drop_empty_and_star branch with
  | [] => []
  | branch :: _ =>
      if PyStr.startswith branch "origin/" then
        let cut_len := String.length "origin/" in
        let slug := PyStr.replace "/" "-" (PyStr.drop cut_len branch) in
        if String.eqb slug "HEAD" then []
        else [mkVCSVersion self branch slug]
      else
        let slug := PyStr.replace "/" "-" branch in
        [mkVCSVersion self branch slug]
  end.

Fixpoint parse_branches_loop (self : Backend) (raw_branches : list (list string))
         (stop : option Exception) (clean_branches : list VCSVersion)
  : Outcome (list VCSVersion) :=
  match raw_branches with
  | [] => match stop with
          | Some e => Raised e
          | None => Ok clean_branches
          end
  | branch :: rest =>
      parse_branches_loop self rest stop
        (clean_branches ++ parse_branch self branch)%list
  end.

Definition parse_branches (self : Backend) (data : string)
  : Outcome (list VCSVersion) :=
  let (raw_branches, stop) := Csv.reader " " data in
  parse_branches_loop self raw_branches stop [].

(** *** The host: command runner and file system

    The backend reaches the outside only through [BaseCLI.run] (a
    subprocess), [os.path.exists], [shutil.rmtree] and the logger.  The host
    is abstract: [World] is whatever state the machine is in, and every
    result below holds for every host. *)

Class Host (World : Type) : Type := {
  (** [subprocess.Popen(args, cwd=cwd, env=os.environ + env)] followed by
      [communicate()]: exit code, stdout, stderr. *)
  popen : string -> list (string * string) -> list string -> World
          -> (Z * string * string) * World;
  (** [os.path.exists(path)] *)
  path_exists : string -> World -> bool;
  (** [shutil.rmtree(path)], which may raise. *)
  rmtree : string -> World -> Outcome unit * World
}.

(** What a method did to the host, in order. *)
Inductive Event : Type :=
| Run (argv : list string) (res : Z * string * string)
| Exists (path : string) (res : bool)
| Rmtree (path : string) (res : Outcome unit)
| Warning (msg : string).

(** What a call leaves behind: what it returned or raised, the state of
    the host, and the external calls it made. *)
Record Result (World A : Type) : Type := mkResult {
  outcome : Outcome A;
  world : World;
  log : list Event
}.

Arguments mkResult {World A} _ _ _.
Arguments outcome {World A} _.
Arguments world {World A} _.
Arguments log {World A} _.

Section Methods.

Context {World : Type} {host : Host World}.

(** A method body, run from a state of the host. *)
Definition M (A : Type) : Type := World -> Result World A.

Definition ret {A} (a : A) : M A :=
  fun w => mkResult (Ok a) w [].

Definition raise {A} (e : Exception) : M A :=
  fun w => mkResult (Raised e) w [].

Definition bind {A B} (m : M A) (k : A -> M B) : M B :=
  fun w =>
    match m w with
    | mkResult (Ok a) w1 l1 =>
        match k a w1 with
        | mkResult o w2 l2 => mkResult o w2 (l1 ++ l2)%list
        end
    | mkResult (Raised e) w1 l1 => mkResult (Raised e) w1 l1
    end.

Notation "x <- m ;; k" := (bind m (fun x => k))
  (at level 61, m at next level, right associativity).
Notation "m ;; k" := (bind m (fun _ => k))
  (at level 61, right associativity).
Notation "' pat <- m ;; k" := (bind m (fun x => let 'pat := x in k))
  (at level 61, pat pattern, m at next level, right associativity).

(** [self.env]: the ambient environment with [GIT_DIR] set. *)
Definition env (self : Backend) : list (string * string) :=
  [("GIT_DIR", PyStr.pjoin (working_dir self) ".git")].

(** Modelled from the spec: [BaseCLI.run], the command runner.  It runs
    the program with the working directory as current directory and the
    environment of [self.env], and returns exit code, stdout and stderr. *)
Definition run (self : Backend) (argv : list string) : M (Z * string * string) :=
  fun w =>
    let (res, w') := popen (working_dir self) (env self) argv w in
    mkResult (Ok res) w' [Run argv res].

Definition exists_ (path : string) : M bool :=
  fun w => let b := path_exists path w in mkResult (Ok b) w [Exists path b].

Definition rmtree_ (path : string) : M unit :=
  fun w => let (o, w') := rmtree path w in mkResult o w' [Rmtree path o].

Definition log_warning (msg : string) : M unit :=
  fun w => mkResult (Ok tt) w [Warning msg].

(** *** Command lines *)

Definition git_config_get_url (self : Backend) : list string :=
  ["git"; "config"; "-f"; PyStr.pjoin (working_dir self) ".git/config";
   "--get"; "remote.origin.url"].
Definition git_status : list string := ["git"; "status"].
Definition git_fetch : list string := ["git"; "fetch"; "--prune"].
Definition git_clone (self : Backend) : list string :=
  ["git"; "clone"; "--recursive"; "--quiet"; repo_url self; "."].
Definition git_submodule_sync : list string := ["git"; "submodule"; "sync"].
Definition git_submodule_update : list string :=
  ["git"; "submodule"; "update"; "--init"; "--recursive"].
Definition git_reset_hard (revision : string) : list string :=
  ["git"; "reset"; "--hard"; revision].
Definition git_reset_hard_to (identifier : string) : list string :=
  ["git"; "reset"; "--hard"; identifier; "--"].
Definition git_show_ref_tags : list string := ["git"; "show-ref"; "--tags"].
Definition git_branch_r : list string := ["git"; "branch"; "-r"].

(** ["Failed to get code from '%s' (git <step>): %s" % (repo_url, code)] *)
Definition failed_to_get_code (self : Backend) (step : string) (code : Z) : string :=
  "Failed to get code from '" ++ repo_url self ++ "' (git " ++ step ++ "): "
    ++ PyStr.str_of_int code.

(** *** Methods *)

Definition repo_url_changed (self : Backend) : M bool :=
  '(code, out, err) <- run self (git_config_get_url self) ;;
  ret (negb (String.eqb (PyStr.strip out) (repo_url self))).

(** Modelled from the spec: [BaseVCS.check_working_dir], the part of the
    working-directory check inherited from the base class.  The spec gives
    the check no action beyond the removal that the backend adds. *)
Definition BaseVCS_check_working_dir (self : Backend) : M unit := ret tt.

Definition check_working_dir (self : Backend) : M unit :=
  e <- exists_ (working_dir self) ;;
  changed <- (if e then repo_url_changed self else ret false) ;;
  (if changed then rmtree_ (working_dir self) else ret tt) ;;
  BaseVCS_check_working_dir self.

(** Modelled from the spec: [BaseVCS.update], the inherited first step of
    [update]: it runs the working-directory check of the backend. *)
Definition BaseVCS_update (self : Backend) : M unit :=
  check_working_dir self.

(** Modelled from the spec: [BaseVCS.checkout], the inherited first step
    of [checkout].  The spec gives [checkout] no step before [update]. *)
Definition BaseVCS_checkout (self : Backend) : M unit := ret tt.

Definition repo_exists (self : Backend) : M bool :=
  '(code, out, err) <- run self git_status ;;
  ret (Z.eqb code 0).

Definition pull (self : Backend) : M unit :=
  '(code, out, err) <- run self git_fetch ;;
  if negb (Z.eqb code 0)
  then raise (ProjectImportError (failed_to_get_code self "fetch" code))
  else ret tt.

Definition reset (self : Backend) : M (Z * string * string) :=
  let branch := py_or (default_branch self) fallback_branch in
  let revision := "origin/" ++ branch in
  '(code, out, err) <- run self (git_reset_hard revision) ;;
  (if negb (Z.eqb code 0)
   then log_warning (failed_to_get_code self "reset" code)
   else ret tt) ;;
  ret (code, out, err).

Definition clone (self : Backend) : M unit :=
  '(code, out, err) <- run self (git_clone self) ;;
  if negb (Z.eqb code 0)
  then raise (ProjectImportError (failed_to_get_code self "clone" code))
  else ret tt.

Definition update (self : Backend) : M (Z * string * string) :=
  BaseVCS_update self ;;
  b <- repo_exists self ;;
  (if b then pull self else clone self) ;;
  run self git_submodule_sync ;;
  run self git_submodule_update ;;
  reset self.

(** Lifts a parser result into a method body. *)
Definition lift {A} (o : Outcome A) : M A :=
  match o with
  | Ok a => ret a
  | Raised e => raise e
  end.

Definition tags (self : Backend) : M (list VCSVersion) :=
  '(retcode, stdout, err) <- run self git_show_ref_tags ;;
  if negb (Z.eqb retcode 0) then ret []
  else lift (parse_tags self stdout).

Definition branches (self : Backend) : M (list VCSVersion) :=
  '(retcode, stdout, err) <- run self git_branch_r ;;
  if negb (Z.eqb retcode 0) then ret []
  else lift (parse_branches self stdout).

(** [not identifier] for [None] or a [str]. *)
Definition is_falsy (identifier : option string) : bool :=
  match identifier with
  | Some s => negb (PyStr.nonempty s)
  | None => true
  end.

Definition checkout (self : Backend) (identifier : option string)
  : M (Z * string * string) :=
  BaseVCS_checkout self ;;
  update self ;;
  let identifier :=
    if is_falsy identifier
    then py_or (default_branch self) fallback_branch
    else match identifier with Some s => s | None => EmptyString end in
  run self (git_reset_hard_to identifier).

End Methods.

(** *** A scripted host

    A host small enough to run: the working directory is present or not,
    its configuration stores an origin URL, and a table gives the exit code
    and stdout of each git subcommand (0 and nothing for the others; status
    fails where there is no directory).  A successful clone creates the
    directory; [rmtree] removes it unless the machine is set to refuse. *)

Module Scripted.

Record Machine : Type := mkMachine {
  present : bool;
  origin : string;
  answers : list (string * (Z * string));
  rmtree_refused : bool
}.

Definition answer (m : Machine) (argv : list string) : Z * string * string :=
  match argv with
  | _ :: sub :: _ =>
      if String.eqb sub "config" then
        if present m then (0%Z, origin m ++ String Csv.LF EmptyString, "")
        else (1%Z, "", "cannot read config")
      else if String.eqb sub "status" && negb (present m) then
        (128%Z, "", "fatal: Not a git repository")
      else
        match find (fun e => String.eqb (fst e) sub) (answers m) with
        | Some (_, (code, out)) => (code, out, "")
        | None => (0%Z, "", "")
        end
  | _ => (127%Z, "", "")
  end.

Definition after (m : Machine) (argv : list string) : Machine :=
  match argv with
  | _ :: sub :: _ :: _ :: url :: _ =>
      if String.eqb sub "clone" && Z.eqb (fst (fst (answer m argv))) 0
      then mkMachine true url (answers m) (rmtree_refused m)
      else m
  | _ => m
  end.

#[export] Instance host : Host Machine := {
  popen := fun _ _ argv m => (answer m argv, after m argv);
  path_exists := fun _ m => present m;
  rmtree := fun _ m =>
    if rmtree_refused m then (Raised (OSError "Permission denied"), m)
    else (Ok tt, mkMachine false "" (answers m) (rmtree_refused m))
}.

Definition docs_url : string := "https://example.org/docs.git".

Definition project : Backend :=
  mkBackend "docs" None "/checkouts/docs" docs_url.

(** A fresh machine: no checkout yet. *)
Definition fresh (answers : list (string * (Z * string))) : Machine :=
  mkMachine false "" answers false.

(** A machine holding a checkout of [url]. *)
Definition cloned (url : string) (answers : list (string * (Z * string))) : Machine :=
  mkMachine true url answers false.

End Scripted.

End Git.

(** * Vocabulary of the specification

    Names for what the statements below talk about: which commands a log
    contains, how a listing is laid out.  Nothing here is used by the
    backend. *)

Module Spec.

Import Git.

(** The git subcommand of a command line. *)
Definition subcommand (argv : list string) : string :=
  match argv with
  | _ :: sub :: _ => sub
  | _ => EmptyString
  end.

(** Was the subcommand [sub] run in this log? *)
Definition attempted (sub : string) (l : list Event) : bool :=
  existsb (fun e => match e with
                    | Run argv _ => String.eqb (subcommand argv) sub
                    | _ => false
                    end) l.

(** Was anything removed in this log? *)
Definition removes (l : list Event) : bool :=
  existsb (fun e => match e with Rmtree _ _ => true | _ => false end) l.

(** The revision the spec gives [reset]: ["origin/"] before the default
    branch, or before the fallback branch when none is configured. *)
Definition reset_revision (self : Backend) : string :=
  match default_branch self with
  | Some (String c b) => "origin/" ++ String c b
  | _ => "origin/master"
  end.

(** Two hosts over the same machine that differ at most in what the
    submodule commands answer (exit code, stdout, stderr); what a command
    does to the machine is the same on both. *)
Definition same_but_submodule_answers {World : Type} (h1 h2 : Host World) : Prop :=
  (forall p w, @path_exists _ h1 p w = @path_exists _ h2 p w) /\
  (forall p w, @rmtree _ h1 p w = @rmtree _ h2 p w) /\
  (forall cwd e argv w,
      snd (@popen _ h1 cwd e argv w) = snd (@popen _ h2 cwd e argv w)) /\
  (forall cwd e argv w,
      String.eqb (subcommand argv) "submodule" = false ->
      @popen _ h1 cwd e argv w = @popen _ h2 cwd e argv w).

(** The scripted host, except that every submodule command fails. *)
Definition submodules_fail : Host Scripted.Machine := {|
  popen := fun _ _ argv m =>
    (if String.eqb (subcommand argv) "submodule"
     then (1%Z, "", "fatal: no submodule mapping found")
     else Scripted.answer m argv,
     Scripted.after m argv);
  path_exists := fun _ m => Scripted.present m;
  rmtree := @rmtree _ Scripted.host
|}.

(** Every character of [s] satisfies [p]. *)
Fixpoint all_chars (p : ascii -> bool) (s : string) : bool :=
  match s with
  | EmptyString => true
  | String c s' => p c && all_chars p s'
  end.

Definition is_not (c : ascii) : ascii -> bool := fun d => negb (Ascii.eqb d c).

(** [n] spaces. *)
Fixpoint spaces (n : nat) : string :=
  match n with
  | O => EmptyString
  | S n' => String " " (spaces n')
  end.

(** A character that can stand in a column of a listing: not the
    delimiter, not an end of line, not NUL. *)
Definition column_char (c : ascii) : bool :=
  is_not " " c && is_not Csv.LF c && is_not Csv.CR c && is_not Csv.NUL c.

(** A column of a listing: at least one character, none of them a space, an
    end of line or NUL, the first not a double quote, and no longer than the
    field limit of the reader.  Commit hashes and ref paths are columns. *)
Definition is_column (s : string) : bool :=
  match s with
  | EmptyString => false
  | String c _ => is_not Csv.quotechar c
  end
  && all_chars column_char s
  && (Z.of_nat (String.length s) <=? Csv.default_field_limit)%Z.

(** One line of a tag listing: a commit hash, one or more spaces
    ([gap] more than one), a ref path. *)
Record TagLine : Type := mkTagLine {
  hash : string;
  gap : nat;
  ref : string
}.

Definition tag_line (e : TagLine) : string :=
  hash e ++ spaces (S (gap e)) ++ ref e.

(** The fields of such a line: every space after the first one between
    the two columns ends an empty field. *)
Definition row_of (e : TagLine) : list string :=
  ((hash e :: repeat "" (gap e)) ++ [ref e])%list.

Definition well_formed_line (e : TagLine) : bool :=
  is_column (hash e) && is_column (ref e).

(** The listing with these lines, each ended by LF; the last one is ended
    by LF only if [final_newline] is set. *)
Fixpoint listing (es : list TagLine) (final_newline : bool) : string :=
  match es with
  | [] => EmptyString
  | [e] => tag_line e ++ (if final_newline then String Csv.LF EmptyString
                          else EmptyString)
  | e :: es' => tag_line e ++ String Csv.LF (listing es' final_newline)
  end.

(** Three lines of the listing in the docstring of [parse_tags], the last
    with three spaces between its columns. *)
Definition docstring_tags : list TagLine :=
  [mkTagLine "3b32886c8d3cb815df3793b3937b2e91d0fb00f1" 0 "refs/tags/2.0.0";
   mkTagLine "bd533a768ff661991a689d3758fcfe72f455435d" 0 "refs/tags/2.0.1";
   mkTagLine "a63a2de628a3ce89034b7d1a5ca5e8159534eef0" 2 "refs/tags/2.1.0.beta2"].

(** [seg] is the final slash-separated segment of [path]. *)
Definition final_segment (path seg : string) : Prop :=
  all_chars (is_not "/") seg = true
  /\ (path = seg \/ exists before, path = before ++ "/" ++ seg).

(** What [checkout] resets to: the identifier when one is given (and not
    empty), else the default branch when one is configured (and not empty),
    else the fallback branch. *)
Definition checkout_target (self : Backend) (identifier : option string) : string :=
  match identifier with
  | Some (String c s) => String c s
  | _ => match default_branch self with
         | Some (String c b) => String c b
         | _ => "master"
         end
  end.

(** The exit code of an answer of the command runner. *)
Definition exit_code (res : Z * string * string) : Z := fst (fst res).

(** A string that is empty or starts with a character that is no space. *)
Definition starts_clean (s : string) : bool :=
  match s with
  | EmptyString => true
  | String c _ => negb (PyStr.isspace c)
  end.

(** A record of the tag listing that [parse_tags] accepts: two columns, a
    column being a field that is not empty, or none at all. *)
Definition two_or_no_columns (row : list string) : bool :=
  match drop_empty row with
  | [] | [_; _] => true
  | _ => false
  end.

(** The version a record with two columns stands for; a record without
    columns stands for none. *)
Definition tag_of_row (self : Backend) (row : list string) : list VCSVersion :=
  match drop_empty row with
  | [commit_hash; name] =>
      [mkVCSVersion self commit_hash (PyStr.last_item (PyStr.split "/" name))]
  | _ => []
  end.

(** Words joined by single spaces. *)
Fixpoint join_words (ws : list string) : string :=
  match ws with
  | [] => EmptyString
  | [w] => w
  | w :: ws' => w ++ " " ++ join_words ws'
  end.

(** A line of words after [lead] spaces. *)
Definition words_line (lead : nat) (ws : list string) : string :=
  spaces lead ++ join_words ws.

(** One line of [git branch -r]: a remote branch ["origin/<name>"], after
    two spaces or after the marker of the current branch, and followed, on
    an alias line, by an arrow and the branch the alias stands for. *)
Record BranchLine : Type := mkBranchLine {
  current : bool;
  branch_name : string;
  alias_of : option string
}.

Definition branch_words (e : BranchLine) : list string :=
  ((if current e then ["*"] else [])
   ++ ("origin/" ++ branch_name e)%string
   :: match alias_of e with
      | Some target => ["->"; target]
      | None => []
      end)%list.

Definition branch_line (e : BranchLine) : string :=
  words_line (if current e then 0 else 2) (branch_words e).

Definition well_formed_branch_line (e : BranchLine) : bool :=
  is_column ("origin/" ++ branch_name e)
  && match alias_of e with
     | Some target => is_column target
     | None => true
     end.

(** The listing with these lines, each ended by LF. *)
Fixpoint branch_listing (es : list BranchLine) : string :=
  match es with
  | [] => EmptyString
  | e :: es' => branch_line e ++ String Csv.LF (branch_listing es')
  end.

(** The listing in the docstring of [parse_branches]. *)
Definition docstring_branches : list BranchLine :=
  [mkBranchLine false "2.0.X" None;
   mkBranchLine false "HEAD" (Some "origin/master");
   mkBranchLine false "develop" None;
   mkBranchLine false "master" None;
   mkBranchLine false "release/2.0.0" None;
   mkBranchLine false "release/2.1.0" None].

(** A character the reader takes at face value anywhere in a line: not NUL,
    not a carriage return, not a double quote. *)
Definition plain_char (c : ascii) : bool :=
  is_not Csv.NUL c && is_not Csv.CR c && is_not Csv.quotechar c.

(** No line of [data] is longer than the field limit of the reader. *)
Definition lines_fit (data : string) : bool :=
  forallb (fun line =>
             (Z.of_nat (String.length line) <=? Csv.default_field_limit)%Z)
          (PyStr.readlines data).

(** The reader is between fields or inside an unquoted one. *)
Definition unquoted (r : Csv.Reader) : bool :=
  match Csv.state r with
  | Csv.START_RECORD | Csv.START_FIELD | Csv.IN_FIELD => true
  | _ => false
  end.

(** A plain character that does not end a line. *)
Definition body_char (c : ascii) : bool := plain_char c && is_not Csv.LF c.

(** Whitespace, as [str.strip()] understands it: space, TAB, LF, VT, FF,
    CR. *)
Definition is_whitespace (c : ascii) : bool :=
  existsb (Ascii.eqb c) [" "; "009"; "010"; "011"; "012"; "013"]%char.

(** A string with no whitespace at its end. *)
Fixpoint ends_trimmed (s : string) : bool :=
  match s with
  | EmptyString => true
  | String c EmptyString => negb (is_whitespace c)
  | String _ s' => ends_trimmed s'
  end.

(** A string with no whitespace at either end. *)
Definition trimmed (s : string) : bool :=
  match s with
  | EmptyString => true
  | String c _ => negb (is_whitespace c)
  end
  && ends_trimmed s.

(** What follows a line: LF and the rest of the input, or nothing when the
    line is the last one and has no LF. *)
Definition line_end (after : option string) : string :=
  match after with
  | Some rest => String Csv.LF rest
  | None => EmptyString
  end.

Definition text_after (after : option string) : string :=
  match after with
  | Some rest => rest
  | None => EmptyString
  end.

(** A text made of whole lines: empty, or ended by LF. *)
Fixpoint complete_lines (s : string) : bool :=
  match s with
  | EmptyString => true
  | String c EmptyString => Ascii.eqb c Csv.LF
  | String _ s' => complete_lines s'
  end.

(** The space-separated tokens of a line. *)
Definition tokens (line : string) : list string := PyStr.split " " line.

(** A backend whose requested URL is empty. *)
Definition no_url : Backend := mkBackend "docs" None "/checkouts/docs" "".

End Spec.

(** * Properties *)

(** ** Strings *)

Module PyStrProps.

Import Spec.

Lemma append_nil_r (s : string) : s ++ "" = s.
Proof. induction s as [|c s IH]; cbn; [reflexivity | now rewrite IH]. Qed.

Lemma append_assoc (s t u : string) : (s ++ t) ++ u = s ++ (t ++ u).
Proof. induction s as [|c s IH]; cbn; [reflexivity | now rewrite IH]. Qed.

Lemma length_append (s t : string) :
  String.length (s ++ t) = (String.length s + String.length t)%nat.
Proof. induction s as [|c s IH]; cbn; [reflexivity | now rewrite IH]. Qed.

Lemma all_chars_append (p : ascii -> bool) (s t : string) :
  all_chars p (s ++ t) = all_chars p s && all_chars p t.
Proof.
  induction s as [|c s IH]; cbn; [reflexivity|].
  rewrite IH. apply andb_assoc.
Qed.

Lemma all_chars_weaken (p q : ascii -> bool) (s : string) :
  (forall c, p c = true -> q c = true) ->
  all_chars p s = true -> all_chars q s = true.
Proof.
  intros Hpq. induction s as [|c s IH]; cbn; [reflexivity|].
  intros H. apply andb_true_iff in H. destruct H as [Hc Hs].
  rewrite (Hpq c Hc), (IH Hs). reflexivity.
Qed.

Lemma all_chars_spaces (p : ascii -> bool) (n : nat) :
  p " "%char = true -> all_chars p (spaces n) = true.
Proof.
  intros H. induction n as [|n IH]; cbn; [reflexivity|].
  now rewrite H, IH.
Qed.

(** A split is the whole string, free of separators, or has at least two
    items, the last of which follows the last separator. *)
Lemma split_shape (s : string) :
  (PyStr.split "/" s = [s] /\ all_chars (is_not "/") s = true)
  \/ (exists w x xs before,
         PyStr.split "/" s = w :: x :: xs
         /\ s = before ++ "/" ++ last (x :: xs) ""
         /\ all_chars (is_not "/") (last (x :: xs) "") = true).
Proof.
  induction s as [|c s IH]; [left; split; reflexivity|].
  cbn [PyStr.split].
  destruct (Ascii.eqb_spec c "/") as [->|Hc].
  - right. destruct IH as [[E N]|(w & x & xs & before & E & Hs & N)]; rewrite E.
    + exists "", s, [], "". repeat split; assumption.
    + exists "", w, (x :: xs), (String "/" before).
      split; [reflexivity|].
      change (last (w :: x :: xs) "") with (last (x :: xs) "").
      split; [cbn [String.append]; f_equal; exact Hs | exact N].
  - destruct IH as [[E N]|(w & x & xs & before & E & Hs & N)]; rewrite E.
    + left. split; [reflexivity|]. cbn. unfold is_not at 1.
      apply Ascii.eqb_neq in Hc. now rewrite Hc, N.
    + right. exists (String c w), x, xs, (String c before).
      split; [reflexivity|]. split; [cbn [String.append]; f_equal; exact Hs | exact N].
Qed.

(** The last item of a split is the final segment. *)
Lemma last_item_split (s : string) :
  final_segment s (PyStr.last_item (PyStr.split "/" s)).
Proof.
  unfold final_segment, PyStr.last_item.
  destruct (split_shape s) as [[E N]|(w & x & xs & before & E & Hs & N)];
    rewrite E.
  - split; [exact N | left; reflexivity].
  - change (last (w :: x :: xs) "") with (last (x :: xs) "").
    split; [exact N | right; exists before; exact Hs].
Qed.

Lemma startswith_append (p s : string) : PyStr.startswith (p ++ s) p = true.
Proof.
  unfold PyStr.startswith. induction p as [|c p IH]; cbn.
  - destruct s; reflexivity.
  - destruct (ascii_dec c c); [exact IH | congruence].
Qed.

(** Replacing slashes by hyphens changes no comparison with a string that
    has neither. *)
Lemma replace_eqb (s t : string) :
  all_chars (fun c => is_not "/" c && is_not "-" c) t = true ->
  String.eqb (PyStr.replace "/" "-" s) t = String.eqb s t.
Proof.
  revert t. induction s as [|c s IH]; intros [|d t]; cbn; try reflexivity.
  intros H. apply andb_true_iff in H. destruct H as [Hd Ht].
  apply andb_true_iff in Hd. destruct Hd as [H1 H2].
  unfold is_not in H1, H2. apply negb_true_iff in H1, H2.
  apply Ascii.eqb_neq in H1, H2.
  destruct (Ascii.eqb_spec c "/") as [->|Hc].
  - destruct (Ascii.eqb_spec "-" d) as [<-|_]; [congruence|].
    destruct (Ascii.eqb_spec "/" d) as [<-|_]; [congruence|]. reflexivity.
  - rewrite (IH t Ht). reflexivity.
Qed.

End PyStrProps.

(** ** The reader on well-formed lines *)

Module CsvProps.

Import Spec Csv PyStrProps.

Local Abbreviation limit := default_field_limit.
Local Abbreviation feed := (Csv.feed default_field_limit " "%char).
Local Abbreviation feed_line := (Csv.feed_line default_field_limit " "%char).

Lemma feed_append (r : Reader) (s t : string) :
  feed r (s ++ t)
  = match feed r s with
    | Ok r' => feed r' t
    | Raised e => Raised e
    end.
Proof.
  revert r. induction s as [|c s IH]; intros r; cbn [Csv.feed String.append];
    [reflexivity|].
  destruct (Ascii.eqb c NUL); [reflexivity|].
  destruct (parse_process_char limit " " r c); [apply IH | reflexivity].
Qed.

Lemma column_char_inv (c : ascii) :
  column_char c = true ->
  Ascii.eqb c " " = false /\ Ascii.eqb c LF = false
  /\ Ascii.eqb c CR = false /\ Ascii.eqb c NUL = false.
Proof.
  unfold column_char, is_not. intros H.
  repeat (apply andb_true_iff in H; destruct H as [H ?]).
  repeat split; apply negb_true_iff; assumption.
Qed.

(** Inside a field, the characters of a column are added to the field. *)
Lemma feed_in_field (t : string) :
  forall fs f,
    all_chars column_char t = true ->
    (Z.of_nat (String.length f + String.length t) <= limit)%Z ->
    feed (mkReader IN_FIELD fs f) t = Ok (mkReader IN_FIELD fs (f ++ t)).
Proof.
  induction t as [|c t IH]; intros fs f Hc Hl.
  - cbn [Csv.feed]. now rewrite append_nil_r.
  - cbn [all_chars] in Hc. apply andb_true_iff in Hc. destruct Hc as [Hc Ht].
    destruct (column_char_inv c Hc) as (Hsp & Hlf & Hcr & Hnul).
    cbn [Csv.feed]. rewrite Hnul.
    unfold parse_process_char, is_eol. cbn [state].
    rewrite Hlf, Hcr, Hnul, Hsp. cbn [orb].
    unfold parse_add_char. cbn [field state fields].
    cbn [String.length] in Hl.
    destruct (Z.leb_spec limit (Z.of_nat (String.length f))) as [Hbig|_];
      [lia|].
    rewrite IH; [|exact Ht|].
    + now rewrite append_assoc.
    + rewrite length_append. cbn [String.length]. lia.
Qed.

(** At the start of a record or of a field, a column opens a field. *)
Lemma feed_column (st : ParserState) (fs : list string) (t : string) :
  st = START_RECORD \/ st = START_FIELD ->
  is_column t = true ->
  feed (mkReader st fs "") t = Ok (mkReader IN_FIELD fs t).
Proof.
  intros Hst H. unfold is_column in H.
  apply andb_true_iff in H. destruct H as [H Hl].
  apply andb_true_iff in H. destruct H as [Hq Hc].
  destruct t as [|c t]; [discriminate|].
  apply Z.leb_le in Hl.
  pose proof Hc as Hc'. cbn [all_chars] in Hc'.
  apply andb_true_iff in Hc'. destruct Hc' as [Hc1 Ht].
  destruct (column_char_inv c Hc1) as (Hsp & Hlf & Hcr & Hnul).
  unfold is_not in Hq. apply negb_true_iff in Hq.
  cbn [Csv.feed]. rewrite Hnul.
  assert (E : parse_process_char limit " " (mkReader st fs "") c
              = Ok (mkReader IN_FIELD fs (String c ""))).
  { unfold parse_process_char, start_field, add_char_then, parse_add_char, is_eol.
    destruct Hst as [-> | ->]; cbn [state field fields];
      rewrite ?Hlf, ?Hcr, ?Hnul, ?Hq, ?Hsp; reflexivity. }
  rewrite E. rewrite feed_in_field; [reflexivity | exact Ht |].
  cbn [String.length] in *. lia.
Qed.

(** Between fields, every further delimiter closes an empty field. *)
Lemma feed_spaces (n : nat) :
  forall fs,
    feed (mkReader START_FIELD fs "") (spaces n)
    = Ok (mkReader START_FIELD (fs ++ repeat "" n) "").
Proof.
  induction n as [|n IH]; intros fs; cbn [spaces Csv.feed repeat].
  - now rewrite app_nil_r.
  - change (Ascii.eqb " " NUL) with false. cbv iota.
    change (parse_process_char limit " " (mkReader START_FIELD fs "") " ")
      with (Ok (mkReader START_FIELD (fs ++ [""]) "")).
    cbv iota. rewrite IH. now rewrite <- app_assoc.
Qed.

Lemma feed_tag_line (e : TagLine) :
  well_formed_line e = true ->
  feed parse_reset (tag_line e)
  = Ok (mkReader IN_FIELD (hash e :: repeat "" (gap e)) (ref e)).
Proof.
  unfold well_formed_line, tag_line, parse_reset. intros H.
  apply andb_true_iff in H. destruct H as [Hh Hr].
  rewrite feed_append, (feed_column START_RECORD [] (hash e)); auto.
  cbn [spaces]. change (String " " (spaces (gap e)))
    with (" " ++ spaces (gap e)).
  rewrite append_assoc, feed_append.
  change (feed (mkReader IN_FIELD [] (hash e)) " ")
    with (Ok (mkReader START_FIELD [hash e] "")).
  cbv iota. rewrite feed_append, feed_spaces.
  apply feed_column; auto.
Qed.

(** A line of a tag listing, with or without its LF, is one record. *)
Lemma feed_line_tag_line (e : TagLine) (newline : bool) :
  well_formed_line e = true ->
  feed_line parse_reset
    (tag_line e ++ (if newline then String LF "" else ""))
  = Ok (mkReader START_RECORD (row_of e) "").
Proof.
  intros H. unfold Csv.feed_line.
  rewrite feed_append, (feed_tag_line e H).
  destruct newline; reflexivity.
Qed.

(** Lines are cut at LF and nowhere else. *)
Lemma readlines_from_line (s : string) :
  forall cur rest,
    all_chars (is_not LF) s = true ->
    PyStr.readlines_from cur (s ++ String LF rest)
    = (cur ++ s ++ String LF "") :: PyStr.readlines_from "" rest.
Proof.
  induction s as [|c s IH]; intros cur rest H.
  - cbn. reflexivity.
  - cbn [all_chars] in H. apply andb_true_iff in H. destruct H as [Hc Hs].
    unfold is_not in Hc. apply negb_true_iff in Hc.
    cbn [String.append PyStr.readlines_from].
    change "010"%char with LF. rewrite Hc.
    rewrite (IH _ _ Hs), append_assoc. reflexivity.
Qed.

Lemma readlines_from_last (s : string) :
  forall cur,
    all_chars (is_not LF) s = true ->
    PyStr.readlines_from cur s
    = if PyStr.nonempty (cur ++ s) then [cur ++ s] else [].
Proof.
  induction s as [|c s IH]; intros cur H.
  - cbn. now rewrite append_nil_r.
  - cbn [all_chars] in H. apply andb_true_iff in H. destruct H as [Hc Hs].
    unfold is_not in Hc. apply negb_true_iff in Hc.
    cbn [PyStr.readlines_from].
    change "010"%char with LF. rewrite Hc.
    rewrite (IH _ Hs), append_assoc. reflexivity.
Qed.

Lemma tag_line_no_newline (e : TagLine) :
  well_formed_line e = true ->
  all_chars (is_not LF) (tag_line e) = true.
Proof.
  unfold well_formed_line, tag_line, is_column. intros H.
  apply andb_true_iff in H. destruct H as [Hh Hr].
  apply andb_true_iff in Hh. destruct Hh as [Hh _].
  apply andb_true_iff in Hh. destruct Hh as [_ Hh].
  apply andb_true_iff in Hr. destruct Hr as [Hr _].
  apply andb_true_iff in Hr. destruct Hr as [_ Hr].
  assert (W : forall c, column_char c = true -> is_not LF c = true).
  { intros c Hc. unfold is_not. apply negb_true_iff.
    apply (column_char_inv c Hc). }
  rewrite !all_chars_append.
  rewrite (all_chars_weaken _ _ _ W Hh), (all_chars_weaken _ _ _ W Hr).
  rewrite all_chars_spaces; reflexivity.
Qed.

Lemma tag_line_nonempty (e : TagLine) (t : string) :
  well_formed_line e = true -> PyStr.nonempty (tag_line e ++ t) = true.
Proof.
  unfold well_formed_line, tag_line, is_column. intros H.
  destruct (hash e); [discriminate | reflexivity].
Qed.

(** The reader delivers one record per line of a well-formed listing. *)
Lemma reader_listing (es : list TagLine) (final_newline : bool) :
  forallb well_formed_line es = true ->
  reader " " (listing es final_newline) = (map row_of es, None).
Proof.
  unfold reader, PyStr.readlines.
  induction es as [|e es IH]; intros H; [reflexivity|].
  cbn [forallb] in H. apply andb_true_iff in H. destruct H as [He Hes].
  pose proof (tag_line_no_newline e He) as Hnl.
  destruct es as [|e' es].
  - cbn [listing map]. destruct final_newline.
    + rewrite (readlines_from_line _ "" "" Hnl).
      cbn [String.append PyStr.readlines_from PyStr.nonempty Csv.records].
      rewrite (feed_line_tag_line e true He). reflexivity.
    + rewrite append_nil_r, (readlines_from_last _ "" Hnl).
      cbn [String.append].
      pose proof (tag_line_nonempty e "" He) as Hn.
      rewrite append_nil_r in Hn. rewrite Hn.
      cbn [Csv.records].
      pose proof (feed_line_tag_line e false He) as F.
      rewrite append_nil_r in F. rewrite F. reflexivity.
  - change (listing (e :: e' :: es) final_newline)
      with (tag_line e ++ String LF (listing (e' :: es) final_newline)).
    rewrite (readlines_from_line _ "" _ Hnl).
    cbn [String.append Csv.records].
    rewrite (feed_line_tag_line e true He).
    cbn [state state_eqb fields].
    rewrite (IH Hes). reflexivity.
Qed.

End CsvProps.

Module GitProps.

Import Git Spec.

(** Symbolic execution of a method body: [step] unfolds the methods and
    the monad, [next_in] asks the host for its next answer. *)
Ltac step :=
  cbv beta iota zeta delta
    [checkout update BaseVCS_checkout BaseVCS_update check_working_dir
     BaseVCS_check_working_dir repo_url_changed repo_exists pull clone
     reset tags branches lift bind run exists_ rmtree_ log_warning ret raise
     outcome world log app negb fst snd].

Ltac step_in E :=
  cbv beta iota zeta delta
    [checkout update BaseVCS_checkout BaseVCS_update check_working_dir
     BaseVCS_check_working_dir repo_url_changed repo_exists pull clone
     reset tags branches lift bind run exists_ rmtree_ log_warning ret raise
     outcome world log app negb fst snd] in E.

Ltac next_in E :=
  match type of E with
  | context [path_exists ?p ?w] => destruct (path_exists p w) eqn:?
  | context [popen ?a ?b ?c ?w] =>
      destruct (popen a b c w) as [[[? ?] ?] ?] eqn:?
  | context [rmtree ?p ?w] => destruct (rmtree p w) as [[[]|?] ?] eqn:?
  | context [Z.eqb ?c 0] => destruct (Z.eqb c 0) eqn:?
  | context [String.eqb (PyStr.strip ?o) ?u] =>
      destruct (String.eqb (PyStr.strip o) u) eqn:?
  | context [parse_tags ?b ?d] => destruct (parse_tags b d) eqn:?
  | context [parse_branches ?b ?d] => destruct (parse_branches b d) eqn:?
  end.

(** From [E : m w = mkResult o w' l] to one goal per path through [m],
    with [o], [w'] and [l] replaced by what that path gives. *)
Ltac run_in E :=
  step_in E; repeat (next_in E; step_in E);
  injection E as <- <- <-.

(** Closes a goal whose hypotheses place an event in a log that does not
    hold it, or give an exit code both as zero and as non-zero. *)
Ltac absurd_event :=
  repeat match goal with
         | H : In _ (_ :: _) |- _ => destruct H as [H | H]
         | H : In _ [] |- _ => destruct H
         | H : Run _ _ = Run _ _ |- _ => injection H as H ?; subst
         | H : Rmtree _ _ = Rmtree _ _ |- _ => injection H as ? ?; subst
         | H : (_ =? 0)%Z = true |- _ => apply Z.eqb_eq in H; subst
         | H : (_ =? 0)%Z = false |- _ => apply Z.eqb_neq in H
         end;
  try discriminate; try congruence.

(** ** The parsers *)

Section Parsers.

Import PyStrProps CsvProps.

Variable self : Backend.

(** The version [parse_tags] makes of a line. *)
Let tag_of (e : TagLine) : VCSVersion :=
  mkVCSVersion self (hash e) (PyStr.last_item (PyStr.split "/" (ref e))).

Lemma is_column_nonempty (s : string) :
  is_column s = true -> String.eqb s "" = false.
Proof. destruct s; [discriminate | reflexivity]. Qed.

Lemma drop_empty_row_of (e : TagLine) :
  well_formed_line e = true -> drop_empty (row_of e) = [hash e; ref e].
Proof.
  unfold well_formed_line, row_of, drop_empty. intros H.
  apply andb_true_iff in H. destruct H as [Hh Hr].
  rewrite filter_app. cbn [filter].
  rewrite (is_column_nonempty _ Hh), (is_column_nonempty _ Hr). cbn [negb].
  assert (E : filter (fun f => negb (String.eqb f "")) (repeat "" (gap e)) = []).
  { induction (gap e) as [|n IH]; [reflexivity | exact IH]. }
  rewrite E. reflexivity.
Qed.

Lemma parse_tags_loop_listing (es : list TagLine) :
  forall acc,
    forallb well_formed_line es = true ->
    parse_tags_loop self (map row_of es) None acc
    = Ok (acc ++ map tag_of es)%list.
Proof.
  induction es as [|e es IH]; intros acc H.
  - cbn. now rewrite app_nil_r.
  - cbn [forallb] in H. apply andb_true_iff in H. destruct H as [He Hes].
    cbn [map parse_tags_loop].
    rewrite (drop_empty_row_of e He). cbn [unpack2].
    rewrite (IH _ Hes), <- app_assoc. reflexivity.
Qed.

(** C4, as amended.  On a well-formed listing of N lines (a commit hash,
    one or more spaces, a ref path; lines ended by LF, the last one with or
    without it) [parse_tags] returns N versions in the order of the lines: the
    identifier of each is the hash of its line and its name is the final
    slash-separated segment of the ref path.  The line of the docstring
    gives identifier [c0288a17899b2c6818f74e3a90b77e2a1779f96a] and name
    [2.0.2]. *)
Theorem parse_tags_well_formed_listing
  (es : list TagLine) (final_newline : bool) :
  forallb well_formed_line es = true ->
  (exists vcs_tags,
      parse_tags self (listing es final_newline) = Ok vcs_tags
      /\ length vcs_tags = length es
      /\ Forall2 (fun e v =>
                    repository v = self
                    /\ identifier v = hash e
                    /\ final_segment (ref e) (verbose_name v))
                 es vcs_tags)
  /\ parse_tags self "c0288a17899b2c6818f74e3a90b77e2a1779f96a refs/tags/2.0.2"
     = Ok [mkVCSVersion self "c0288a17899b2c6818f74e3a90b77e2a1779f96a" "2.0.2"].
Proof.
  intros H. split; [|reflexivity].
  exists (map tag_of es). split; [|split].
  - unfold parse_tags. rewrite (reader_listing es final_newline H).
    apply (parse_tags_loop_listing es [] H).
  - apply length_map.
  - clear H. induction es as [|e es IH]; constructor; [|exact IH].
    split; [reflexivity|]. split; [reflexivity|]. apply last_item_split.
Qed.

(** A record with one column, or with more than two, stops the loop of
    [parse_tags] with the unpacking error. *)
Lemma parse_tags_loop_raises (rows : list (list string)) :
  forall stop acc row,
    In row rows ->
    length (drop_empty row) <> 0%nat ->
    length (drop_empty row) <> 2%nat ->
    exists msg,
      parse_tags_loop self rows stop acc = Raised (ValueError msg)
      /\ (msg = "need more than 1 value to unpack"
          \/ msg = "too many values to unpack").
Proof.
  induction rows as [|r rows IH]; intros stop acc row Hin H0 H2; [destruct Hin|].
  cbn [parse_tags_loop].
  destruct (drop_empty r) as [|a [|b [|c t]]] eqn:E.
  - destruct Hin as [->|Hin]; [rewrite E in H0; now elim H0|].
    apply (IH stop acc row Hin H0 H2).
  - eexists; split; [reflexivity | left; reflexivity].
  - destruct Hin as [->|Hin]; [rewrite E in H2; now elim H2|].
    cbn [unpack2]. apply (IH _ _ row Hin H0 H2).
  - eexists; split; [reflexivity | right; reflexivity].
Qed.

(** C9, as amended.  If the reader delivers a record that, once its
    empty fields are dropped, has at least one field but not exactly two,
    [parse_tags] raises the unpacking error ([ValueError]) and returns no
    list. *)
Theorem parse_tags_raises_on_wrong_column_count
  (data : string) (rows : list (list string)) (stop : option Exception)
  (row : list string) :
  Csv.reader " " data = (rows, stop) ->
  In row rows ->
  length (drop_empty row) <> 0%nat ->
  length (drop_empty row) <> 2%nat ->
  exists msg,
    parse_tags self data = Raised (ValueError msg)
    /\ (msg = "need more than 1 value to unpack"
        \/ msg = "too many values to unpack").
Proof.
  intros E Hin H0 H2. unfold parse_tags. rewrite E.
  apply (parse_tags_loop_raises rows stop [] row Hin H0 H2).
Qed.

Lemma parse_branches_loop_eq (rows : list (list string)) :
  forall stop acc,
    parse_branches_loop self rows stop acc
    = match stop with
      | None => Ok (acc ++ flat_map (parse_branch self) rows)%list
      | Some e => Raised e
      end.
Proof.
  induction rows as [|r rows IH]; intros stop acc; cbn [parse_branches_loop flat_map].
  - rewrite app_nil_r. reflexivity.
  - rewrite IH, <- app_assoc. reflexivity.
Qed.

End Parsers.

(** ** The synchronisation methods *)

Section Methods.

Context {World : Type} {host : Host World}.

Lemma revision_eq (self : Backend) :
  "origin/" ++ py_or (default_branch self) fallback_branch
  = reset_revision self.
Proof.
  unfold reset_revision, py_or, fallback_branch.
  destruct (default_branch self) as [[|c b]|]; reflexivity.
Qed.

(** C1.  Whenever the fetch of [update] (run when the status probe found
    a repository) or its clone (run otherwise) exits with a non-zero
    code, [update] raises [ProjectImportError] with the message that
    carries the remote URL and that code, and the log of the call holds
    no submodule command and no reset. *)
Theorem update_aborts_on_failed_fetch_or_clone
  (self : Backend) (w : World) (code : Z) (out err : string) :
  code <> 0%Z ->
  (In (Run ["git"; "fetch"; "--prune"] (code, out, err))
      (log (update self w)) ->
   outcome (update self w)
   = Raised (ProjectImportError
               ("Failed to get code from '" ++ repo_url self
                ++ "' (git fetch): " ++ PyStr.str_of_int code))
   /\ attempted "submodule" (log (update self w)) = false
   /\ attempted "reset" (log (update self w)) = false)
  /\
  (In (Run ["git"; "clone"; "--recursive"; "--quiet"; repo_url self; "."]
           (code, out, err))
      (log (update self w)) ->
   outcome (update self w)
   = Raised (ProjectImportError
               ("Failed to get code from '" ++ repo_url self
                ++ "' (git clone): " ++ PyStr.str_of_int code))
   /\ attempted "submodule" (log (update self w)) = false
   /\ attempted "reset" (log (update self w)) = false).
Proof.
  intros Hc.
  destruct (update self w) as [o w' l] eqn:E.
  run_in E; cbn [log outcome]; split; intros H;
    unfold git_fetch, git_clone, git_status, git_config_get_url,
      git_submodule_sync, git_submodule_update, git_reset_hard in H;
    absurd_event;
    (split; [reflexivity | split; reflexivity]).
Qed.

Lemma reset_eq (self : Backend) (w : World) :
  let cmd := ["git"; "reset"; "--hard"; reset_revision self] in
  let res := fst (popen (working_dir self) (env self) cmd w) in
  reset self w =
  mkResult (Ok res) (snd (popen (working_dir self) (env self) cmd w))
    (Run cmd res
     :: if Z.eqb (fst (fst res)) 0 then []
        else [Warning (failed_to_get_code self "reset" (fst (fst res)))]).
Proof.
  cbv zeta. unfold reset, git_reset_hard. rewrite revision_eq.
  step. destruct (popen _ _ _ _) as [[[code out] err] w']. step.
  destruct (Z.eqb code 0); step; reflexivity.
Qed.

(** C3.  [reset] runs one command, the hard reset to ["origin/"] followed
    by the default branch (the fallback branch ["master"] when no default
    branch is configured).  Whatever the exit code, it returns the triple
    the command gave, unchanged, and raises nothing; on a non-zero code it
    logs one warning first. *)
Theorem reset_returns_triple_and_never_raises (self : Backend) (w : World) :
  forall code out err w',
    popen (working_dir self) (env self)
          ["git"; "reset"; "--hard"; reset_revision self] w
    = ((code, out, err), w') ->
    reset self w =
    mkResult (Ok (code, out, err)) w'
      (Run ["git"; "reset"; "--hard"; reset_revision self] (code, out, err)
       :: if Z.eqb code 0 then []
          else [Warning (failed_to_get_code self "reset" code)]).
Proof.
  intros code out err w' H.
  rewrite reset_eq. cbv zeta. rewrite H. reflexivity.
Qed.

(** C6.  [parse_tags] of the empty string is the empty list; [tags]
    returns the empty list, without raising and without parsing, when
    the tag listing exits with a non-zero code, and so does [branches]
    when the branch listing does. *)
Theorem failed_or_empty_listing_gives_no_versions (self : Backend) (w : World) :
  parse_tags self "" = Ok []
  /\ (forall code out err w',
         popen (working_dir self) (env self) ["git"; "show-ref"; "--tags"] w
         = ((code, out, err), w') ->
         code <> 0%Z ->
         tags self w
         = mkResult (Ok []) w' [Run ["git"; "show-ref"; "--tags"] (code, out, err)])
  /\ (forall code out err w',
         popen (working_dir self) (env self) ["git"; "branch"; "-r"] w
         = ((code, out, err), w') ->
         code <> 0%Z ->
         branches self w
         = mkResult (Ok []) w' [Run ["git"; "branch"; "-r"] (code, out, err)]).
Proof.
  split; [reflexivity|].
  split; intros code out err w' H Hc; apply Z.eqb_neq in Hc.
  - step. unfold git_show_ref_tags. rewrite H. step. rewrite Hc. reflexivity.
  - step. unfold git_branch_r. rewrite H. step. rewrite Hc. reflexivity.
Qed.

(** C7.  With no identifier and no default branch configured, [checkout]
    first does all that [update] does.  If [update] raises, so does
    [checkout]; otherwise [checkout] runs the hard reset to the fallback
    branch ["master"] and returns the triple of that command as it is. *)
Theorem checkout_without_identifier_resets_to_fallback
  (self : Backend) (w : World) :
  default_branch self = None ->
  match outcome (update self w) with
  | Ok _ =>
      forall code out err w',
        popen (working_dir self) (env self)
              ["git"; "reset"; "--hard"; "master"; "--"]
              (world (update self w))
        = ((code, out, err), w') ->
        checkout self None w
        = mkResult (Ok (code, out, err)) w'
            (log (update self w)
             ++ [Run ["git"; "reset"; "--hard"; "master"; "--"]
                     (code, out, err)])%list
  | Raised e =>
      checkout self None w
      = mkResult (Raised e) (world (update self w)) (log (update self w))
  end.
Proof.
  intros Hd.
  unfold checkout, BaseVCS_checkout, is_falsy, py_or, fallback_branch,
    git_reset_hard_to.
  rewrite Hd.
  cbv beta iota zeta delta [bind ret run app].
  destruct (update self w) as [[t|e] w1 l1]; cbn [outcome world log].
  - intros code out err w' H. rewrite H. reflexivity.
  - reflexivity.
Qed.









(** Once the submodule synchronisation has been run, whatever it
    answered, [update] goes on to the submodule update and the reset and
    returns the triple the reset command gave. *)
Lemma update_after_submodule_sync (self : Backend) (w : World)
      (res1 : Z * string * string) :
  In (Run ["git"; "submodule"; "sync"] res1) (log (update self w)) ->
  exists res2 t,
    outcome (update self w) = Ok t
    /\ In (Run ["git"; "submodule"; "update"; "--init"; "--recursive"] res2)
          (log (update self w))
    /\ In (Run ["git"; "reset"; "--hard"; reset_revision self] t)
          (log (update self w)).
Proof.
  rewrite <- revision_eq.
  destruct (update self w) as [o w' l] eqn:E.
  run_in E; cbn [log outcome]; intros H;
    unfold git_fetch, git_clone, git_status, git_config_get_url,
      git_submodule_sync, git_submodule_update, git_reset_hard in *;
    absurd_event;
    (eexists _, _; split; [reflexivity|];
     split; cbn [In]; repeat first [left; reflexivity | right]).
Qed.

End Methods.

Section TwoHosts.

Context {World : Type} (h1 h2 : Host World).
Hypothesis Hsame : same_but_submodule_answers h1 h2.

Let Hpe := proj1 Hsame.
Let Hrm := proj1 (proj2 Hsame).
Let Hsnd := proj1 (proj2 (proj2 Hsame)).
Let Hpo := proj2 (proj2 (proj2 Hsame)).

(** Moves the head call of the first host over to the second. *)
Ltac to_second :=
  step;
  repeat first [ rewrite Hpe | rewrite Hrm | rewrite Hpo by reflexivity ].

Ltac next_answer :=
  match goal with
  | |- context [@path_exists _ h2 ?p ?w] => destruct (@path_exists _ h2 p w)
  | |- context [@popen _ h2 ?a ?b ?c ?w] =>
      destruct (@popen _ h2 a b c w) as [[[? ?] ?] ?]
  | |- context [@rmtree _ h2 ?p ?w] =>
      destruct (@rmtree _ h2 p w) as [[[]|?] ?]
  | |- context [Z.eqb ?c 0] => destruct (Z.eqb c 0)
  | |- context [String.eqb (PyStr.strip ?o) ?u] =>
      destruct (String.eqb (PyStr.strip o) u)
  end.

Ltac same_run := to_second; repeat (next_answer; to_second); reflexivity.

Lemma check_working_dir_same (self : Backend) (w : World) :
  @check_working_dir _ h1 self w = @check_working_dir _ h2 self w.
Proof. same_run. Qed.

Lemma repo_exists_same (self : Backend) (w : World) :
  @repo_exists _ h1 self w = @repo_exists _ h2 self w.
Proof. same_run. Qed.

Lemma pull_same (self : Backend) (w : World) :
  @pull _ h1 self w = @pull _ h2 self w.
Proof. same_run. Qed.

Lemma clone_same (self : Backend) (w : World) :
  @clone _ h1 self w = @clone _ h2 self w.
Proof. same_run. Qed.

Lemma reset_same (self : Backend) (w : World) :
  @reset _ h1 self w = @reset _ h2 self w.
Proof. same_run. Qed.

Lemma update_same_outcome (self : Backend) (w : World) :
  outcome (@update _ h1 self w) = outcome (@update _ h2 self w)
  /\ world (@update _ h1 self w) = world (@update _ h2 self w).
Proof.
  unfold update, BaseVCS_update.
  cbv beta iota zeta delta [bind].
  rewrite check_working_dir_same.
  destruct (@check_working_dir _ h2 self w) as [[[]|e] w1 l1];
    [|split; reflexivity].
  rewrite repo_exists_same.
  destruct (@repo_exists _ h2 self w1) as [[b|e] w2 l2];
    [|split; reflexivity].
  assert (T : (if b then @pull _ h1 self else @clone _ h1 self) w2
              = (if b then @pull _ h2 self else @clone _ h2 self) w2).
  { destruct b; [apply pull_same | apply clone_same]. }
  rewrite T.
  destruct ((if b then @pull _ h2 self else @clone _ h2 self) w2)
    as [[[]|e] w3 l3]; [|split; reflexivity].
  unfold run.
  pose proof (Hsnd (working_dir self) (env self) git_submodule_sync w3) as S1.
  destruct (@popen _ h1 _ _ git_submodule_sync w3) as [r1 w4].
  destruct (@popen _ h2 _ _ git_submodule_sync w3) as [r1' w4'].
  cbn [snd] in S1. subst w4'.
  pose proof (Hsnd (working_dir self) (env self) git_submodule_update w4) as S2.
  destruct (@popen _ h1 _ _ git_submodule_update w4) as [r2 w5].
  destruct (@popen _ h2 _ _ git_submodule_update w4) as [r2' w5'].
  cbn [snd] in S2. subst w5'.
  rewrite reset_same.
  destruct (@reset _ h2 self w5) as [o w6 l6].
  split; reflexivity.
Qed.

End TwoHosts.

(** C8.  [update] does not look at what the two submodule commands
    answer.  On two hosts that differ only in those answers (exit codes
    included) it returns or raises the same thing and leaves the machine in
    the same state; and once the submodule synchronisation has been run,
    whatever it answered, [update] runs the submodule update and the reset
    and returns the triple of the reset command. *)
Theorem update_ignores_submodule_exit_codes
  {World : Type} (h1 h2 : Host World) (self : Backend) (w : World) :
  same_but_submodule_answers h1 h2 ->
  outcome (@update _ h1 self w) = outcome (@update _ h2 self w)
  /\ world (@update _ h1 self w) = world (@update _ h2 self w)
  /\ (forall res1,
        In (Run ["git"; "submodule"; "sync"] res1) (log (@update _ h1 self w)) ->
        exists res2 t,
          outcome (@update _ h1 self w) = Ok t
          /\ In (Run ["git"; "submodule"; "update"; "--init"; "--recursive"] res2)
                (log (@update _ h1 self w))
          /\ In (Run ["git"; "reset"; "--hard"; reset_revision self] t)
                (log (@update _ h1 self w))).
Proof.
  intros Hsame.
  destruct (update_same_outcome h1 h2 Hsame self w) as [Ho Hw].
  split; [exact Ho|]. split; [exact Hw|].
  intros res1. apply update_after_submodule_sync.
Qed.

(** ** The statements at work on the scripted host *)

Import Scripted.

Ltac in_log := cbn [In]; repeat first [left; reflexivity | right].

Lemma update_aborts_on_failed_fetch_or_clone_witness :
  let no_route := cloned docs_url [("fetch", (1%Z, ""))] in
  let denied := fresh [("clone", (128%Z, ""))] in
  (outcome (update project no_route)
   = Raised (ProjectImportError
               "Failed to get code from 'https://example.org/docs.git' (git fetch): 1")
   /\ attempted "submodule" (log (update project no_route)) = false
   /\ attempted "reset" (log (update project no_route)) = false)
  /\
  (outcome (update project denied)
   = Raised (ProjectImportError
               "Failed to get code from 'https://example.org/docs.git' (git clone): 128")
   /\ attempted "submodule" (log (update project denied)) = false
   /\ attempted "reset" (log (update project denied)) = false).
Proof.
  cbv zeta. split.
  - apply (proj1 (update_aborts_on_failed_fetch_or_clone
                    project (cloned docs_url [("fetch", (1%Z, ""))]) 1 "" ""
                    ltac:(discriminate))).
    vm_compute. in_log.
  - apply (proj2 (update_aborts_on_failed_fetch_or_clone
                    project (fresh [("clone", (128%Z, ""))]) 128 "" ""
                    ltac:(discriminate))).
    vm_compute. in_log.
Defined.


Lemma reset_returns_triple_and_never_raises_witness :
  let renamed := cloned docs_url [("reset", (128%Z, ""))] in
  reset project renamed
  = mkResult (Ok (128%Z, "", "")) renamed
      [Run ["git"; "reset"; "--hard"; "origin/master"] (128%Z, "", "");
       Warning "Failed to get code from 'https://example.org/docs.git' (git reset): 128"].
Proof.
  cbv zeta.
  apply (reset_returns_triple_and_never_raises (host := Scripted.host)
           project (cloned docs_url [("reset", (128%Z, ""))]) 128 "" ""
           (cloned docs_url [("reset", (128%Z, ""))])).
  reflexivity.
Defined.

Lemma failed_or_empty_listing_gives_no_versions_witness :
  let bare := cloned docs_url [("show-ref", (1%Z, "")); ("branch", (128%Z, ""))] in
  tags project bare
  = mkResult (Ok []) bare [Run ["git"; "show-ref"; "--tags"] (1%Z, "", "")]
  /\ branches project bare
    = mkResult (Ok []) bare [Run ["git"; "branch"; "-r"] (128%Z, "", "")].
Proof.
  cbv zeta.
  destruct (failed_or_empty_listing_gives_no_versions (host := Scripted.host)
              project
              (cloned docs_url [("show-ref", (1%Z, "")); ("branch", (128%Z, ""))]))
    as (_ & Ht & Hb).
  split.
  - apply (Ht 1%Z "" "" _ eq_refl). discriminate.
  - apply (Hb 128%Z "" "" _ eq_refl). discriminate.
Defined.

Lemma checkout_without_identifier_resets_to_fallback_witness :
  let m := cloned docs_url [] in
  default_branch project = None
  /\ outcome (checkout project None m) = Ok (0%Z, "", "")
  /\ In (Run ["git"; "reset"; "--hard"; "master"; "--"] (0%Z, "", ""))
        (log (checkout project None m)).
Proof.
  cbv zeta. split; [reflexivity|].
  pose proof (checkout_without_identifier_resets_to_fallback (host := Scripted.host)
                project (cloned docs_url []) eq_refl) as H.
  change (outcome (update project (cloned docs_url []))) with
    (@Ok (Z * string * string) (0%Z, "", "")) in H.
  cbv iota in H.
  rewrite (H 0%Z "" "" (cloned docs_url []) eq_refl).
  split; [reflexivity|]. vm_compute. in_log.
Defined.

Lemma submodules_fail_same : same_but_submodule_answers Scripted.host submodules_fail.
Proof.
  repeat split.
  intros cwd e argv m H. cbn. rewrite H. reflexivity.
Defined.

Lemma update_ignores_submodule_exit_codes_witness :
  let m := cloned docs_url [] in
  same_but_submodule_answers Scripted.host submodules_fail
  /\ In (Run ["git"; "submodule"; "sync"]
            (1%Z, "", "fatal: no submodule mapping found"))
        (log (@update _ submodules_fail project m))
  /\ outcome (@update _ submodules_fail project m)
    = outcome (@update _ Scripted.host project m)
  /\ world (@update _ submodules_fail project m)
    = world (@update _ Scripted.host project m).
Proof.
  cbv zeta. split; [exact submodules_fail_same|].
  split; [vm_compute; in_log|].
  destruct (update_ignores_submodule_exit_codes
              Scripted.host submodules_fail project (cloned docs_url [])
              submodules_fail_same) as (Ho & Hw & _).
  split; [symmetry; exact Ho | symmetry; exact Hw].
Defined.

Lemma parse_tags_well_formed_listing_witness :
  forallb well_formed_line docstring_tags = true
  /\ exists vcs_tags,
      parse_tags project (listing docstring_tags true) = Ok vcs_tags
      /\ length vcs_tags = 3%nat
      /\ map identifier vcs_tags = map hash docstring_tags.
Proof.
  split; [reflexivity|].
  destruct (proj1 (parse_tags_well_formed_listing project docstring_tags true eq_refl))
    as (vs & Hp & Hl & Hf).
  exists vs. split; [exact Hp|]. split; [exact Hl|].
  clear Hp Hl. induction Hf as [|e v es vs' (_ & Hi & _) _ IH]; [reflexivity|].
  cbn [map]. rewrite Hi, IH. reflexivity.
Defined.

Lemma parse_tags_raises_on_wrong_column_count_witness :
  let data := "c0288a17 refs/tags/2.0.2 (tag)" ++ String Csv.LF "" in
  exists msg, parse_tags project data = Raised (ValueError msg).
Proof.
  cbv zeta.
  destruct (parse_tags_raises_on_wrong_column_count
              project ("c0288a17 refs/tags/2.0.2 (tag)" ++ String Csv.LF "")
              [["c0288a17"; "refs/tags/2.0.2"; "(tag)"]] None
              ["c0288a17"; "refs/tags/2.0.2"; "(tag)"]
              eq_refl (or_introl eq_refl)
              ltac:(vm_compute; discriminate) ltac:(vm_compute; discriminate))
    as (msg & H & _).
  exists msg. exact H.
Defined.

(** C4, as stated, fails.  A tab is whitespace, yet a line whose hash and
    ref path are separated by a tab is one field for the reader, whose
    delimiter is the space: [parse_tags] raises the unpacking error. *)
Lemma parse_tags_tab_separated_line_raises :
  let line := "c0288a17899b2c6818f74e3a90b77e2a1779f96a"
              ++ String "009" "refs/tags/2.0.2" in
  PyStr.isspace "009" = true
  /\ Csv.reader " " (line ++ String Csv.LF "") = ([[line]], None)
  /\ parse_tags project (line ++ String Csv.LF "")
     = Raised (ValueError "need more than 1 value to unpack").
Proof. repeat split. Defined.

(** C9, as stated, fails.  A line of two spaces is not empty and has no
    field left once the empty ones are dropped, which is not two; yet
    [parse_tags] skips it and returns the empty list. *)
Lemma parse_tags_skips_line_of_spaces :
  let line := "  " in
  let data := line ++ String Csv.LF "" in
  line <> ""
  /\ Csv.reader " " data = ([[""; ""; ""]], None)
  /\ length (drop_empty [""; ""; ""]) <> 2%nat
  /\ parse_tags project data = Ok [].
Proof.
  cbv zeta. repeat split; try reflexivity; discriminate.
Defined.

End GitProps.

(** ** More on strings: [strip] and [os.path.join] *)

Module StripProps.

Import Spec PyStrProps.

Lemma lstrip_spaces (ws : string) :
  all_chars PyStr.isspace ws = true -> PyStr.lstrip ws = "".
Proof.
  induction ws as [|c ws IH]; cbn [all_chars PyStr.lstrip]; [reflexivity|].
  intros H. apply andb_true_iff in H. destruct H as [Hc Hws].
  rewrite Hc. exact (IH Hws).
Qed.

Lemma lstrip_append_spaces (ws s : string) :
  all_chars PyStr.isspace ws = true -> PyStr.lstrip (ws ++ s) = PyStr.lstrip s.
Proof.
  induction ws as [|c ws IH]; cbn [all_chars String.append PyStr.lstrip];
    [reflexivity|].
  intros H. apply andb_true_iff in H. destruct H as [Hc Hws].
  rewrite Hc. exact (IH Hws).
Qed.

Lemma rstrip_spaces (ws : string) :
  all_chars PyStr.isspace ws = true -> PyStr.rstrip ws = "".
Proof.
  induction ws as [|c ws IH]; cbn [all_chars PyStr.rstrip]; [reflexivity|].
  intros H. apply andb_true_iff in H. destruct H as [Hc Hws].
  rewrite (IH Hws), Hc. reflexivity.
Qed.

Lemma rstrip_append_spaces (s ws : string) :
  all_chars PyStr.isspace ws = true -> PyStr.rstrip (s ++ ws) = PyStr.rstrip s.
Proof.
  intros H. induction s as [|c s IH]; cbn [String.append PyStr.rstrip].
  - exact (rstrip_spaces ws H).
  - rewrite IH. reflexivity.
Qed.

Lemma rstrip_idempotent (s : string) :
  PyStr.rstrip (PyStr.rstrip s) = PyStr.rstrip s.
Proof.
  induction s as [|c s IH]; [reflexivity|].
  cbn [PyStr.rstrip].
  destruct (PyStr.rstrip s) as [|d t] eqn:E.
  - destruct (PyStr.isspace c) eqn:Hc; [reflexivity|].
    cbn [PyStr.rstrip]. rewrite Hc. reflexivity.
  - cbn [PyStr.rstrip]. cbn [PyStr.rstrip] in IH. rewrite IH. reflexivity.
Qed.

Lemma lstrip_starts_clean (s : string) : starts_clean (PyStr.lstrip s) = true.
Proof.
  induction s as [|c s IH]; [reflexivity|].
  cbn [PyStr.lstrip]. destruct (PyStr.isspace c) eqn:Hc; [exact IH|].
  cbn. now rewrite Hc.
Qed.

Lemma lstrip_of_clean (s : string) :
  starts_clean s = true -> PyStr.lstrip s = s.
Proof.
  destruct s as [|c s]; [reflexivity|]. cbn.
  intros H. apply negb_true_iff in H. now rewrite H.
Qed.

Lemma rstrip_keeps_clean (s : string) :
  starts_clean s = true -> starts_clean (PyStr.rstrip s) = true.
Proof.
  destruct s as [|c s]; [reflexivity|]. cbn [starts_clean PyStr.rstrip].
  intros H. destruct (PyStr.rstrip s); [|exact H].
  apply negb_true_iff in H. rewrite H. cbn. now rewrite H.
Qed.

Lemma strip_idempotent (s : string) :
  PyStr.strip (PyStr.strip s) = PyStr.strip s.
Proof.
  unfold PyStr.strip.
  rewrite (lstrip_of_clean (PyStr.rstrip (PyStr.lstrip s))).
  - apply rstrip_idempotent.
  - apply rstrip_keeps_clean, lstrip_starts_clean.
Qed.

Lemma strip_fixed_starts_clean (u : string) :
  PyStr.strip u = u -> starts_clean u = true.
Proof.
  intros H. rewrite <- H. unfold PyStr.strip.
  apply rstrip_keeps_clean, lstrip_starts_clean.
Qed.

(** Whitespace around a stripped string is stripped off. *)
Lemma strip_surrounded (before u after : string) :
  all_chars PyStr.isspace before = true ->
  all_chars PyStr.isspace after = true ->
  PyStr.strip u = u ->
  PyStr.strip (before ++ u ++ after) = u.
Proof.
  intros Hb Ha Hu. unfold PyStr.strip.
  rewrite (lstrip_append_spaces before _ Hb).
  pose proof (strip_fixed_starts_clean u Hu) as Hc.
  destruct u as [|c u].
  - cbn [String.append]. rewrite (lstrip_spaces after Ha). reflexivity.
  - assert (L : PyStr.lstrip (String c u ++ after) = String c u ++ after).
    { apply lstrip_of_clean. exact Hc. }
    rewrite L, (rstrip_append_spaces _ after Ha).
    rewrite <- (lstrip_of_clean (String c u) Hc) at 1. exact Hu.
Qed.

Lemma ends_with_slash_append (s t : string) :
  PyStr.nonempty t = true ->
  PyStr.ends_with_slash (s ++ t) = PyStr.ends_with_slash t.
Proof.
  intros Ht. induction s as [|c s IH]; [reflexivity|].
  cbn [String.append PyStr.ends_with_slash].
  destruct (s ++ t) as [|d r] eqn:E; [|exact IH].
  destruct s; [cbn in E; subst t; discriminate | discriminate].
Qed.

Lemma nonempty_append (s t : string) :
  PyStr.nonempty t = true -> PyStr.nonempty (s ++ t) = true.
Proof. intros H. destruct s; [exact H | reflexivity]. Qed.

(** Joining [".git/config"] to a directory is joining ["config"] to the
    join of [".git"] to it. *)
Lemma pjoin_git_config (dir : string) :
  PyStr.pjoin dir ".git/config" = PyStr.pjoin (PyStr.pjoin dir ".git") "config".
Proof.
  assert (G : forall d, PyStr.pjoin (d ++ ".git") "config" = d ++ ".git/config").
  { intros d. unfold PyStr.pjoin.
    change (PyStr.startswith "config" "/") with false. cbv iota.
    rewrite (nonempty_append d ".git" eq_refl),
      (ends_with_slash_append d ".git" eq_refl).
    change (negb true || PyStr.ends_with_slash ".git") with false. cbv iota.
    rewrite append_assoc. reflexivity. }
  unfold PyStr.pjoin at 1 3.
  change (PyStr.startswith ".git/config" "/") with false.
  change (PyStr.startswith ".git" "/") with false. cbv iota.
  destruct (negb (PyStr.nonempty dir) || PyStr.ends_with_slash dir).
  - rewrite G. reflexivity.
  - change (dir ++ "/" ++ ".git") with (dir ++ "/" ++ ".git").
    rewrite <- (append_assoc dir "/" ".git"), G, append_assoc. reflexivity.
Qed.

End StripProps.

(** ** More on the synchronisation methods *)

Module SyncProps.

Import Git Spec GitProps PyStrProps StripProps.

Section Methods.

Context {World : Type} {host : Host World}.

(** X1.  [update] runs the fetch only after a status probe that exited with
    0 and the clone only after one that exited with another code; it never
    runs both in one call. *)
Theorem update_fetches_or_clones_by_status (self : Backend) (w : World) :
  (attempted "fetch" (log (update self w)) = true ->
   attempted "clone" (log (update self w)) = false
   /\ exists out err, In (Run ["git"; "status"] (0%Z, out, err)) (log (update self w)))
  /\ (attempted "clone" (log (update self w)) = true ->
      attempted "fetch" (log (update self w)) = false
      /\ exists code out err,
          code <> 0%Z
          /\ In (Run ["git"; "status"] (code, out, err)) (log (update self w))).
Proof.
  destruct (update self w) as [o w' l] eqn:E.
  run_in E; cbn [log]; split; intros H;
    try (vm_compute in H; discriminate H);
    (split; [reflexivity|]);
    repeat match goal with
           | H : (_ =? 0)%Z = true |- _ => apply Z.eqb_eq in H; subst
           | H : (_ =? 0)%Z = false |- _ => apply Z.eqb_neq in H
           end;
    unfold git_status;
    first [ eexists _, _; solve [in_log]
          | eexists _, _, _; split; cycle 1; [solve [in_log] | assumption] ].
Qed.

(** The log of a call of [update] that returns. *)
Lemma update_ok_log (self : Backend) (w : World)
        (t : Z * string * string) :
  outcome (update self w) = Ok t ->
  exists sc so se cmd tout terr r1 r2,
    log (update self w)
    = (log (check_working_dir self w)
       ++ Run ["git"; "status"] (sc, so, se)
       :: Run cmd (0%Z, tout, terr)
       :: Run ["git"; "submodule"; "sync"] r1
       :: Run ["git"; "submodule"; "update"; "--init"; "--recursive"] r2
       :: Run ["git"; "reset"; "--hard"; reset_revision self] t
       :: (if Z.eqb (exit_code t) 0 then []
           else [Warning (failed_to_get_code self "reset" (exit_code t))]))%list
    /\ ((sc = 0%Z /\ cmd = ["git"; "fetch"; "--prune"])
        \/ (sc <> 0%Z
            /\ cmd = ["git"; "clone"; "--recursive"; "--quiet"; repo_url self; "."])).
Proof.
  rewrite <- revision_eq.
  destruct (update self w) as [o w' l] eqn:E.
  destruct (check_working_dir self w) as [oc wc lc] eqn:Ec.
  step_in E. step_in Ec. cbn [log outcome].
  repeat (next_in Ec; step_in Ec; step_in E);
    injection Ec as <- <- <-;
    repeat (next_in E; step_in E);
    injection E as <- <- <-;
    intros H; try discriminate H; injection H as <-;
    cbn [exit_code fst app];
    repeat match goal with
           | H : (?c =? 0)%Z = _ |- context [(?c =? 0)%Z] => rewrite H
           end;
    repeat match goal with
           | H : (_ =? 0)%Z = true |- _ => apply Z.eqb_eq in H; subst
           | H : (_ =? 0)%Z = false |- _ => apply Z.eqb_neq in H
           end;
    eexists _, _, _, _, _, _, _, _;
    (split; [reflexivity|]);
    first [ left; split; reflexivity
          | right; split; [assumption | reflexivity] ].
Qed.

(** X2.  When [update] returns, its log is that of the working-directory
    check followed by exactly five commands in this order: the status probe,
    the fetch (probe exited with 0) or the clone (otherwise), which exited
    with 0, the submodule synchronisation, the submodule update and the hard
    reset whose triple is returned; a warning follows if and only if the
    reset exited with a non-zero code. *)
Theorem successful_update_log (self : Backend) (w : World)
        (t : Z * string * string) :
  outcome (update self w) = Ok t ->
  exists sc so se cmd tout terr r1 r2,
    log (update self w)
    = (log (check_working_dir self w)
       ++ Run ["git"; "status"] (sc, so, se)
       :: Run cmd (0%Z, tout, terr)
       :: Run ["git"; "submodule"; "sync"] r1
       :: Run ["git"; "submodule"; "update"; "--init"; "--recursive"] r2
       :: Run ["git"; "reset"; "--hard"; reset_revision self] t
       :: (if Z.eqb (exit_code t) 0 then []
           else [Warning (failed_to_get_code self "reset" (exit_code t))]))%list
    /\ ((sc = 0%Z /\ cmd = ["git"; "fetch"; "--prune"])
        \/ (sc <> 0%Z
            /\ cmd = ["git"; "clone"; "--recursive"; "--quiet"; repo_url self; "."])).
Proof. apply update_ok_log. Qed.

(** X3.  [update] looks up the stored origin URL if and only if the working
    directory exists: on a missing directory no configuration is read (and,
    with nothing to compare, nothing is removed). *)
Theorem update_reads_config_iff_directory_exists (self : Backend) (w : World) :
  attempted "config" (log (update self w)) = path_exists (working_dir self) w
  /\ (path_exists (working_dir self) w = false ->
      removes (log (update self w)) = false).
Proof.
  destruct (update self w) as [o w' l] eqn:E.
  step_in E. destruct (path_exists (working_dir self) w) eqn:Hex.
  - step_in E. repeat (next_in E; step_in E); injection E as <- <- <-;
      (split; [reflexivity | discriminate]).
  - step_in E. repeat (next_in E; step_in E); injection E as <- <- <-;
      (split; [reflexivity | intros _; reflexivity]).
Qed.

(** What [checkout] does after [update]. *)
Lemma checkout_resets_to_target_aux
  (self : Backend) (identifier : option string) (w : World) :
  match outcome (update self w) with
  | Ok _ =>
      forall code out err w',
        popen (working_dir self) (env self)
              ["git"; "reset"; "--hard"; checkout_target self identifier; "--"]
              (world (update self w))
        = ((code, out, err), w') ->
        checkout self identifier w
        = mkResult (Ok (code, out, err)) w'
            (log (update self w)
             ++ [Run ["git"; "reset"; "--hard";
                      checkout_target self identifier; "--"]
                     (code, out, err)])%list
  | Raised e =>
      checkout self identifier w
      = mkResult (Raised e) (world (update self w)) (log (update self w))
  end.
Proof.
  assert (T : (if is_falsy identifier
               then py_or (default_branch self) fallback_branch
               else match identifier with Some s => s | None => "" end)
              = checkout_target self identifier).
  { unfold checkout_target, is_falsy, py_or, fallback_branch.
    destruct identifier as [[|c s]|]; cbn [PyStr.nonempty negb];
      try reflexivity;
      destruct (default_branch self) as [[|c' b]|]; reflexivity. }
  unfold checkout, BaseVCS_checkout, git_reset_hard_to.
  cbv zeta. rewrite T.
  cbv beta iota zeta delta [bind ret run app].
  destruct (update self w) as [[t|e] w1 l1]; cbn [outcome world log].
  - intros code out err w' H. rewrite H. reflexivity.
  - reflexivity.
Qed.

(** X4.  [checkout] resets to the identifier as it is given, with no
    ["origin/"] before it; an empty identifier counts as none, and then the
    target is the default branch, or ["master"] when that is unset or empty.
    If [update] raises, [checkout] raises the same error and runs no reset.
    Otherwise it returns the triple of the reset whatever its exit code, and
    adds nothing but that command to the log of [update]: a failed reset is
    neither raised nor warned about here. *)
Theorem checkout_resets_to_target
  (self : Backend) (identifier : option string) (w : World) :
  match outcome (update self w) with
  | Ok _ =>
      forall code out err w',
        popen (working_dir self) (env self)
              ["git"; "reset"; "--hard"; checkout_target self identifier; "--"]
              (world (update self w))
        = ((code, out, err), w') ->
        checkout self identifier w
        = mkResult (Ok (code, out, err)) w'
            (log (update self w)
             ++ [Run ["git"; "reset"; "--hard";
                      checkout_target self identifier; "--"]
                     (code, out, err)])%list
  | Raised e =>
      checkout self identifier w
      = mkResult (Raised e) (world (update self w)) (log (update self w))
  end.
Proof. apply checkout_resets_to_target_aux. Qed.

(** X5.  The URL comparison of [repo_url_changed] forgives whitespace
    around the stored URL but none around the requested one.  If the lookup
    prints the requested URL between runs of whitespace (its trailing
    newline, say), the answer is "unchanged"; if the requested URL itself
    starts or ends with whitespace, the answer is "changed" whatever the
    lookup prints, so an existing working directory is removed on every
    check. *)
Theorem repo_url_changed_and_whitespace
  (self : Backend) (w : World) (code : Z) (out err : string) (w' : World) :
  popen (working_dir self) (env self)
        ["git"; "config"; "-f"; PyStr.pjoin (working_dir self) ".git/config";
         "--get"; "remote.origin.url"] w
  = ((code, out, err), w') ->
  (forall before after,
      all_chars PyStr.isspace before = true ->
      all_chars PyStr.isspace after = true ->
      PyStr.strip (repo_url self) = repo_url self ->
      out = before ++ repo_url self ++ after ->
      outcome (repo_url_changed self w) = Ok false)
  /\ (PyStr.strip (repo_url self) <> repo_url self ->
      outcome (repo_url_changed self w) = Ok true
      /\ (path_exists (working_dir self) w = true ->
          removes (log (check_working_dir self w)) = true)).
Proof.
  intros H.
  assert (R : outcome (repo_url_changed self w)
              = Ok (negb (String.eqb (PyStr.strip out) (repo_url self)))).
  { step. unfold git_config_get_url. rewrite H. reflexivity. }
  rewrite R. split.
  - intros before after Hb Ha Hu ->.
    rewrite (strip_surrounded _ _ _ Hb Ha Hu), String.eqb_refl. reflexivity.
  - intros Hne.
    assert (N : String.eqb (PyStr.strip out) (repo_url self) = false).
    { apply String.eqb_neq. intros E. apply Hne.
      rewrite <- E. apply strip_idempotent. }
    rewrite N. split; [reflexivity|].
    intros Hex. step. rewrite Hex. step.
    unfold git_config_get_url. rewrite H. step. rewrite N. step.
    destruct (rmtree (working_dir self) w') as [[[]|e] w2]; reflexivity.
Qed.

(** X6.  The configuration file that [repo_url_changed] reads is the file
    [config] of the very directory every command gets as [GIT_DIR],
    whatever the working directory is (empty, or with a slash at its end). *)
Theorem lookup_reads_config_of_git_dir (self : Backend) :
  exists git_dir,
    env self = [("GIT_DIR", git_dir)]
    /\ git_config_get_url self
       = ["git"; "config"; "-f"; PyStr.pjoin git_dir "config";
          "--get"; "remote.origin.url"].
Proof.
  exists (PyStr.pjoin (working_dir self) ".git"). split; [reflexivity|].
  unfold git_config_get_url. rewrite pjoin_git_config. reflexivity.
Qed.

(** X13.  [update] raises nothing but the import failure of a fetch or
    clone that exited with a non-zero code, or the error with which the
    removal of the working directory failed. *)
Theorem update_raises_only_import_or_removal_errors
  (self : Backend) (w : World) (e : Exception) :
  outcome (update self w) = Raised e ->
  (exists code,
      code <> 0%Z
      /\ (e = ProjectImportError (failed_to_get_code self "fetch" code)
          \/ e = ProjectImportError (failed_to_get_code self "clone" code)))
  \/ In (Rmtree (working_dir self) (Raised e)) (log (update self w)).
Proof.
  destruct (update self w) as [o w' l] eqn:E.
  run_in E; cbn [outcome log]; intros H; try discriminate H;
    injection H as <-;
    repeat match goal with
           | H : (_ =? 0)%Z = false |- _ => apply Z.eqb_neq in H
           end;
    first [ right; solve [in_log]
          | left; eexists; split; [eassumption | left; reflexivity]
          | left; eexists; split; [eassumption | right; reflexivity] ].
Qed.

(** X14.  A call of [checkout] that returns has reset twice: first, at the
    end of [update], to ["origin/"] and the default branch, with a warning
    if that reset failed, and last of all to its own target, whose triple it
    returns.  So a default branch that is missing on the remote is warned
    about even when the requested identifier checks out. *)
Theorem checkout_resets_twice
  (self : Backend) (identifier : option string) (w : World)
  (t : Z * string * string) :
  outcome (checkout self identifier w) = Ok t ->
  exists before t1,
    log (checkout self identifier w)
    = (before
       ++ Run ["git"; "reset"; "--hard"; reset_revision self] t1
       :: (if Z.eqb (exit_code t1) 0 then []
           else [Warning (failed_to_get_code self "reset" (exit_code t1))])
       ++ [Run ["git"; "reset"; "--hard"; checkout_target self identifier; "--"]
               t])%list.
Proof.
  pose proof (checkout_resets_to_target_aux self identifier w) as C.
  destruct (outcome (update self w)) as [t1|e] eqn:O.
  - destruct (update_ok_log self w t1 O)
      as (sc & so & se & cmd & tout & terr & r1 & r2 & L & _).
    destruct (popen (working_dir self) (env self)
                    ["git"; "reset"; "--hard"; checkout_target self identifier; "--"]
                    (world (update self w))) as [[[code out] err] w'] eqn:P.
    rewrite (C code out err w' eq_refl). cbn [outcome log].
    intros H. injection H as <-.
    exists (log (check_working_dir self w)
            ++ [Run ["git"; "status"] (sc, so, se); Run cmd (0%Z, tout, terr);
                Run ["git"; "submodule"; "sync"] r1;
                Run ["git"; "submodule"; "update"; "--init"; "--recursive"] r2])%list,
      t1.
    rewrite L, <- !app_assoc. reflexivity.
  - rewrite C. cbn [outcome]. discriminate.
Qed.

End Methods.

End SyncProps.

(** ** More on the parsers *)

Module ParserProps.

Import Git Spec PyStrProps CsvProps GitProps.

Section Parsers.

Variable self : Backend.

Lemma replace_no_slash (s : string) :
  all_chars (is_not "/") (PyStr.replace "/" "-" s) = true.
Proof.
  induction s as [|c s IH]; [reflexivity|].
  cbn [PyStr.replace all_chars]. rewrite IH, andb_true_r.
  unfold is_not. destruct (Ascii.eqb_spec c "/") as [->|Hc]; [reflexivity|].
  apply negb_true_iff, Ascii.eqb_neq. exact Hc.
Qed.

(** The first field kept by the filter of [parse_branches] is neither empty
    nor the marker. *)
Lemma kept_field (row : list string) (b : string) (rest : list string) :
  drop_empty_and_star row = b :: rest -> b <> "" /\ b <> "*".
Proof.
  intros E.
  assert (Hin : In b (drop_empty_and_star row)) by (rewrite E; left; reflexivity).
  apply filter_In in Hin. destruct Hin as [_ H].
  apply andb_true_iff in H. destruct H as [H1 H2].
  apply negb_true_iff in H1, H2. apply String.eqb_neq in H1, H2.
  split; assumption.
Qed.

Lemma parse_branch_invariant (row : list string) (v : VCSVersion) :
  In v (parse_branch self row) ->
  repository v = self
  /\ identifier v <> "" /\ identifier v <> "*" /\ identifier v <> "origin/HEAD"
  /\ all_chars (is_not "/") (verbose_name v) = true.
Proof.
  unfold parse_branch.
  destruct (drop_empty_and_star row) as [|b rest] eqn:E; [intros []|].
  destruct (kept_field row b rest E) as [Hne Hstar].
  destruct (PyStr.startswith b "origin/") eqn:Hp.
  - cbv zeta.
    destruct (String.eqb_spec
                (PyStr.replace "/" "-" (PyStr.drop (String.length "origin/") b))
                "HEAD") as [Hh|Hh]; [intros []|].
    intros [<-|[]]. cbn [repository identifier verbose_name].
    repeat split; try assumption; [|apply replace_no_slash].
    intros ->. apply Hh. reflexivity.
  - cbv zeta. intros [<-|[]]. cbn [repository identifier verbose_name].
    repeat split; try assumption; [|apply replace_no_slash].
    intros ->. discriminate Hp.
Qed.

End Parsers.

(** X7.  Whatever the input, every version [parse_branches] returns belongs
    to the backend, is identified by a field of the listing that is neither
    empty, nor the marker ["*"], nor the alias ["origin/HEAD"], and has a
    name without any slash. *)
Theorem parse_branches_versions_are_clean
  (self : Backend) (data : string) (clean_branches : list VCSVersion) :
  parse_branches self data = Ok clean_branches ->
  Forall (fun v =>
            repository v = self
            /\ identifier v <> "" /\ identifier v <> "*"
            /\ identifier v <> "origin/HEAD"
            /\ all_chars (is_not "/") (verbose_name v) = true)
         clean_branches.
Proof.
  unfold parse_branches. destruct (Csv.reader " " data) as [rows stop].
  rewrite parse_branches_loop_eq. destruct stop; [discriminate|].
  cbn [app]. intros H. injection H as <-.
  apply Forall_forall. intros v Hin. apply in_flat_map in Hin.
  destruct Hin as (row & _ & Hv). exact (parse_branch_invariant self row v Hv).
Qed.

Section Tags.

Variable self : Backend.

Lemma drop_empty_head (row : list string) (a : string) (rest : list string) :
  drop_empty row = a :: rest -> a <> "".
Proof.
  intros E.
  assert (Hin : In a (drop_empty row)) by (rewrite E; left; reflexivity).
  apply filter_In in Hin. destruct Hin as [_ H].
  apply negb_true_iff, String.eqb_neq in H. exact H.
Qed.

Lemma parse_tags_loop_ok (rows : list (list string)) :
  forall stop acc,
    forallb two_or_no_columns rows = true ->
    parse_tags_loop self rows stop acc
    = match stop with
      | Some e => Raised e
      | None => Ok (acc ++ flat_map (tag_of_row self) rows)%list
      end.
Proof.
  induction rows as [|r rows IH]; intros stop acc H.
  - cbn. rewrite app_nil_r. reflexivity.
  - cbn [forallb] in H. apply andb_true_iff in H. destruct H as [Hr Hrows].
    cbn [parse_tags_loop flat_map]. unfold two_or_no_columns in Hr.
    unfold tag_of_row.
    destruct (drop_empty r) as [|a [|b [|c t]]]; try discriminate Hr.
    + rewrite (IH _ _ Hrows). reflexivity.
    + cbn [unpack2]. rewrite (IH _ _ Hrows).
      destruct stop; [reflexivity|]. rewrite <- app_assoc. reflexivity.
Qed.

Lemma parse_tags_loop_bad (rows : list (list string)) :
  forall stop acc,
    forallb two_or_no_columns rows = false ->
    exists msg, parse_tags_loop self rows stop acc = Raised (ValueError msg).
Proof.
  induction rows as [|r rows IH]; intros stop acc H; [discriminate|].
  cbn [forallb] in H. cbn [parse_tags_loop].
  unfold two_or_no_columns in H.
  destruct (drop_empty r) as [|a [|b [|c t]]].
  - apply IH. exact H.
  - eexists; reflexivity.
  - cbn [unpack2]. apply IH. exact H.
  - eexists; reflexivity.
Qed.

End Tags.

(** X8.  [parse_tags] returns a list exactly when the reader reports no
    error and every record has two columns or none (a column being a field
    that is not empty).  The list then holds one version per record with
    two columns, in the order of the records: identified by the first
    column, which is never empty, and named by the final slash-separated
    segment of the second, so that no name contains a slash.  A record with
    another number of columns makes it raise [ValueError], whatever
    follows. *)
Theorem parse_tags_succeeds_iff_two_columns (self : Backend) (data : string) :
  let rows := fst (Csv.reader " " data) in
  let stop := snd (Csv.reader " " data) in
  ((exists vcs_tags, parse_tags self data = Ok vcs_tags)
   <-> stop = None /\ forallb two_or_no_columns rows = true)
  /\ (forallb two_or_no_columns rows = false ->
      exists msg, parse_tags self data = Raised (ValueError msg))
  /\ (forall vcs_tags,
         parse_tags self data = Ok vcs_tags ->
         vcs_tags = flat_map (tag_of_row self) rows
         /\ Forall (fun v =>
                      repository v = self /\ identifier v <> ""
                      /\ all_chars (is_not "/") (verbose_name v) = true)
                   vcs_tags).
Proof.
  cbv zeta. unfold parse_tags.
  destruct (Csv.reader " " data) as [rows stop]. cbn [fst snd].
  destruct (forallb two_or_no_columns rows) eqn:F.
  - rewrite (parse_tags_loop_ok self rows stop [] F). cbn [app].
    split; [|split].
    + split.
      * intros [vs H]. destruct stop; [discriminate | split; reflexivity].
      * intros [-> _]. eexists; reflexivity.
    + discriminate.
    + intros vs H. destruct stop; [discriminate|]. injection H as <-.
      split; [reflexivity|].
      apply Forall_forall. intros v Hin. apply in_flat_map in Hin.
      destruct Hin as (row & _ & Hv). unfold tag_of_row in Hv.
      destruct (drop_empty row) as [|a [|b [|c t]]] eqn:E;
        try (exfalso; exact Hv).
      destruct Hv as [<-|[]]. cbn [repository identifier verbose_name].
      split; [reflexivity|]. split; [exact (drop_empty_head row a [b] E)|].
      apply (last_item_split b).
  - destruct (parse_tags_loop_bad self rows stop [] F) as [msg Hm].
    rewrite Hm. split; [|split].
    + split; [intros [vs H]; discriminate | intros [_ H]; discriminate].
    + intros _. exists msg. reflexivity.
    + intros vs H. discriminate.
Qed.

End ParserProps.

(** ** More on the reader: lines of words, blank lines *)

Module ReaderProps.

Import Spec Csv PyStrProps CsvProps.

Local Abbreviation limit := default_field_limit.
Local Abbreviation feed := (Csv.feed default_field_limit " "%char).
Local Abbreviation feed_line := (Csv.feed_line default_field_limit " "%char).

(** From the start of a field, words separated by single spaces: all but
    the last are closed fields, the last is the field being read. *)
Lemma feed_words (ws : list string) :
  forall st fs,
    st = START_RECORD \/ st = START_FIELD ->
    ws <> [] ->
    forallb is_column ws = true ->
    feed (mkReader st fs "") (join_words ws)
    = Ok (mkReader IN_FIELD (fs ++ removelast ws)%list (last ws "")).
Proof.
  induction ws as [|w ws IH]; intros st fs Hst Hne H; [congruence|].
  cbn [forallb] in H. apply andb_true_iff in H. destruct H as [Hw Hws].
  destruct ws as [|w' ws].
  - cbn [join_words removelast last]. rewrite app_nil_r.
    apply feed_column; assumption.
  - change (join_words (w :: w' :: ws))
      with (w ++ " " ++ join_words (w' :: ws)).
    rewrite feed_append, (feed_column st fs w Hst Hw).
    rewrite feed_append.
    change (feed (mkReader IN_FIELD fs w) " ")
      with (Ok (mkReader START_FIELD (fs ++ [w])%list "")).
    cbv iota.
    rewrite (IH START_FIELD (fs ++ [w])%list); [|right; reflexivity|discriminate|exact Hws].
    change (removelast (w :: w' :: ws)) with (w :: removelast (w' :: ws)).
    change (last (w :: w' :: ws) "") with (last (w' :: ws) "").
    rewrite <- app_assoc. reflexivity.
Qed.

(** Leading spaces each close an empty field. *)
Lemma feed_lead (lead : nat) :
  exists st,
    (st = START_RECORD \/ st = START_FIELD)
    /\ feed parse_reset (spaces lead) = Ok (mkReader st (repeat "" lead) "").
Proof.
  destruct lead as [|n].
  - exists START_RECORD. split; [left|]; reflexivity.
  - exists START_FIELD. split; [right; reflexivity|].
    change (spaces (S n)) with (" " ++ spaces n).
    rewrite feed_append.
    change (feed parse_reset " ") with (Ok (mkReader START_FIELD [""] "")).
    cbv iota. rewrite feed_spaces. reflexivity.
Qed.

(** A line of words is one record: an empty field for each leading space,
    then the words. *)
Lemma feed_line_words (lead : nat) (ws : list string) (newline : bool) :
  ws <> [] ->
  forallb is_column ws = true ->
  feed_line parse_reset
    (words_line lead ws ++ (if newline then String LF "" else ""))
  = Ok (mkReader START_RECORD (repeat "" lead ++ ws)%list "").
Proof.
  intros Hne H. unfold Csv.feed_line, words_line.
  rewrite feed_append, feed_append.
  destruct (feed_lead lead) as (st & Hst & ->).
  rewrite (feed_words ws st _ Hst Hne H).
  assert (R : ((repeat "" lead ++ removelast ws) ++ [last ws ""])%list
              = (repeat "" lead ++ ws)%list).
  { rewrite <- app_assoc, <- (app_removelast_last "" Hne). reflexivity. }
  rewrite <- R. destruct newline; reflexivity.
Qed.

(** A line of spaces only is one record of empty fields. *)
Lemma feed_line_blank (n : nat) :
  exists k,
    feed_line parse_reset (spaces n ++ String LF "")
    = Ok (mkReader START_RECORD (repeat "" k) "").
Proof.
  unfold Csv.feed_line. rewrite feed_append.
  destruct n as [|n].
  - exists 0%nat. reflexivity.
  - exists (S (S n)).
    change (spaces (S n)) with (" " ++ spaces n).
    rewrite feed_append.
    change (feed parse_reset " ") with (Ok (mkReader START_FIELD [""] "")).
    cbv iota. rewrite feed_spaces.
    change (repeat "" (S (S n))) with ("" :: repeat "" (S n)).
    rewrite (repeat_cons (S n) "").
    change (repeat "" (S n)) with ("" :: repeat "" n).
    reflexivity.
Qed.

(** A first line that is a record of its own is delivered first; the
    reader then starts afresh on what follows. *)
Lemma reader_first_line (line rest : string) (row : list string) (f : string) :
  all_chars (is_not LF) line = true ->
  feed_line parse_reset (line ++ String LF "") = Ok (mkReader START_RECORD row f) ->
  reader " " (line ++ String LF rest)
  = (row :: fst (reader " " rest), snd (reader " " rest)).
Proof.
  intros Hnl H. unfold reader, PyStr.readlines.
  rewrite (readlines_from_line line "" rest Hnl).
  cbn [String.append Csv.records]. rewrite H. cbn [state state_eqb fields].
  destruct (Csv.records limit " " parse_reset (PyStr.readlines_from "" rest));
    reflexivity.
Qed.

Lemma is_column_no_newline (s : string) :
  is_column s = true -> all_chars (is_not LF) s = true.
Proof.
  unfold is_column. intros H.
  apply andb_true_iff in H. destruct H as [H _].
  apply andb_true_iff in H. destruct H as [_ H].
  apply (all_chars_weaken column_char); [|exact H].
  intros c Hc. unfold is_not. apply negb_true_iff.
  apply (column_char_inv c Hc).
Qed.

Lemma words_line_no_newline (lead : nat) (ws : list string) :
  forallb is_column ws = true ->
  all_chars (is_not LF) (words_line lead ws) = true.
Proof.
  intros H. unfold words_line. rewrite all_chars_append.
  rewrite all_chars_spaces; [|reflexivity]. cbn [andb].
  induction ws as [|w ws IH]; [reflexivity|].
  cbn [forallb] in H. apply andb_true_iff in H. destruct H as [Hw Hws].
  destruct ws as [|w' ws]; [exact (is_column_no_newline w Hw)|].
  change (join_words (w :: w' :: ws)) with (w ++ " " ++ join_words (w' :: ws)).
  rewrite !all_chars_append, (is_column_no_newline w Hw), (IH Hws).
  reflexivity.
Qed.

End ReaderProps.

(** ** The reader on plain text *)

Module PlainProps.

Import Spec Csv PyStrProps CsvProps.

Local Abbreviation limit := default_field_limit.
Local Abbreviation feed := (Csv.feed default_field_limit " "%char).
Local Abbreviation feed_line := (Csv.feed_line default_field_limit " "%char).

Lemma body_char_inv (c : ascii) :
  body_char c = true ->
  Ascii.eqb c NUL = false /\ Ascii.eqb c CR = false
  /\ Ascii.eqb c quotechar = false /\ Ascii.eqb c LF = false.
Proof.
  unfold body_char, plain_char, is_not. intros H.
  repeat (apply andb_true_iff in H; destruct H as [H ?]).
  repeat split; apply negb_true_iff; assumption.
Qed.

(** One plain character keeps the reader out of quotes and lengthens the
    field by one at most. *)
Lemma process_body_char (r : Reader) (c : ascii) :
  unquoted r = true ->
  body_char c = true ->
  (Z.of_nat (String.length (field r)) < limit)%Z ->
  exists r',
    parse_process_char limit " " r c = Ok r'
    /\ unquoted r' = true
    /\ (String.length (field r') <= S (String.length (field r)))%nat.
Proof.
  intros Hu Hc Hl.
  destruct (body_char_inv c Hc) as (Hnul & Hcr & Hq & Hlf).
  destruct r as [st fs f]. cbn [field] in Hl.
  assert (A : parse_add_char limit (mkReader st fs f) c
              = Ok (mkReader st fs (f ++ String c ""))).
  { unfold parse_add_char. cbn [field state fields].
    destruct (Z.leb_spec limit (Z.of_nat (String.length f))); [lia | reflexivity]. }
  assert (L : (String.length (f ++ String c "") <= S (String.length f))%nat).
  { rewrite length_append. cbn. lia. }
  unfold unquoted in Hu. cbn [state] in Hu.
  destruct st; try discriminate Hu;
    unfold parse_process_char, start_field, add_char_then, is_eol;
    cbn [state]; rewrite ?Hnul, ?Hcr, ?Hq, ?Hlf; cbn [orb];
    destruct (Ascii.eqb c " ");
    try (eexists; split; [reflexivity|]; split; [reflexivity | cbn; lia]);
    rewrite A; cbn [set_state state fields field];
    (eexists; split; [reflexivity|]; split; [reflexivity | exact L]).
Qed.

Lemma feed_body (body : string) :
  forall r,
    unquoted r = true ->
    all_chars body_char body = true ->
    (Z.of_nat (String.length (field r) + String.length body) <= limit)%Z ->
    exists r', feed r body = Ok r' /\ unquoted r' = true.
Proof.
  induction body as [|c body IH]; intros r Hu Hb Hl.
  - exists r. split; [reflexivity | exact Hu].
  - cbn [all_chars] in Hb. apply andb_true_iff in Hb. destruct Hb as [Hc Hb].
    cbn [String.length] in Hl.
    destruct (process_body_char r c Hu Hc ltac:(lia)) as (r1 & E1 & Hu1 & L1).
    destruct (body_char_inv c Hc) as (Hnul & _).
    cbn [Csv.feed]. rewrite Hnul, E1.
    apply IH; [exact Hu1 | exact Hb | lia].
Qed.

(** A plain line, with or without its LF, ends a record. *)
Lemma feed_line_plain (body : string) (newline : bool) :
  all_chars body_char body = true ->
  (Z.of_nat (String.length body) <= limit)%Z ->
  exists r',
    feed_line parse_reset (body ++ (if newline then String LF "" else ""))
    = Ok r'
    /\ state r' = START_RECORD.
Proof.
  intros Hb Hl. unfold Csv.feed_line. rewrite feed_append.
  destruct (feed_body body parse_reset eq_refl Hb ltac:(cbn; lia))
    as (r1 & E1 & Hu1).
  rewrite E1. destruct r1 as [st fs f]. unfold unquoted in Hu1. cbn [state] in Hu1.
  destruct st; try discriminate Hu1; destruct newline;
    eexists; split; reflexivity.
Qed.

(** Every line that the iteration delivers is a body free of LF, followed
    by LF or, at the end of the input, by nothing. *)
Lemma readlines_from_bodies (data : string) :
  forall cur,
    all_chars body_char cur = true ->
    all_chars plain_char data = true ->
    Forall (fun line =>
              exists body newline,
                line = body ++ (if newline : bool then String LF "" else "")
                /\ all_chars body_char body = true)
           (PyStr.readlines_from cur data).
Proof.
  induction data as [|c data IH]; intros cur Hcur Hd.
  - cbn. destruct (PyStr.nonempty cur); constructor; [|constructor].
    exists cur, false. split; [now rewrite append_nil_r | exact Hcur].
  - cbn [all_chars] in Hd. apply andb_true_iff in Hd. destruct Hd as [Hc Hd].
    cbn [PyStr.readlines_from]. change "010"%char with LF.
    destruct (Ascii.eqb_spec c LF) as [->|Hne].
    + constructor; [|apply IH; [reflexivity | exact Hd]].
      exists cur, true. split; [reflexivity | exact Hcur].
    + apply IH; [|exact Hd].
      rewrite all_chars_append, Hcur. cbn. rewrite andb_true_r.
      unfold body_char, is_not. rewrite Hc.
      apply negb_true_iff, Ascii.eqb_neq. exact Hne.
Qed.

Lemma records_plain (lines : list string) :
  Forall (fun line =>
            exists body newline,
              line = body ++ (if newline : bool then String LF "" else "")
              /\ all_chars body_char body = true) lines ->
  forallb (fun line => (Z.of_nat (String.length line) <=? limit)%Z) lines = true ->
  snd (Csv.records limit " " parse_reset lines) = None.
Proof.
  induction lines as [|l lines IH]; intros HF Hfit; [reflexivity|].
  inversion HF as [|? ? (body & newline & -> & Hb) HF']; subst.
  cbn [forallb] in Hfit. apply andb_true_iff in Hfit. destruct Hfit as [Hl Hfit].
  apply Z.leb_le in Hl. rewrite length_append in Hl.
  destruct (feed_line_plain body newline Hb ltac:(lia)) as (r' & E & Hs).
  cbn [Csv.records]. rewrite E, Hs. cbn [state_eqb].
  specialize (IH HF' Hfit).
  destruct (Csv.records limit " " parse_reset lines) as [rows err].
  exact IH.
Qed.

(** On plain text whose lines fit, the reader reports no error. *)
Lemma reader_plain (data : string) :
  all_chars plain_char data = true ->
  lines_fit data = true ->
  snd (reader " " data) = None.
Proof.
  intros Hp Hfit. unfold reader.
  apply records_plain; [|exact Hfit].
  apply readlines_from_bodies; [reflexivity | exact Hp].
Qed.

End PlainProps.

(** ** The parsers on whole listings *)

Module ListingProps.

Import Git Spec PyStrProps CsvProps GitProps ReaderProps PlainProps ParserProps.

Section Listings.

Variable self : Backend.

Lemma drop_empty_repeat (k : nat) : drop_empty (repeat "" k) = [].
Proof. induction k as [|k IH]; [reflexivity | exact IH]. Qed.

Lemma drop_empty_and_star_repeat (k : nat) (row : list string) :
  drop_empty_and_star (repeat "" k ++ row) = drop_empty_and_star row.
Proof. induction k as [|k IH]; [reflexivity | exact IH]. Qed.

(** A first record without columns changes nothing for [parse_tags]. *)
Lemma parse_tags_first_line (line rest : string) (row : list string) (f : string) :
  all_chars (is_not Csv.LF) line = true ->
  Csv.feed_line Csv.default_field_limit " " Csv.parse_reset
                (line ++ String Csv.LF "")
  = Ok (Csv.mkReader Csv.START_RECORD row f) ->
  drop_empty row = [] ->
  parse_tags self (line ++ String Csv.LF rest) = parse_tags self rest.
Proof.
  intros Hnl H E. unfold parse_tags.
  rewrite (reader_first_line line rest row f Hnl H).
  destruct (Csv.reader " " rest) as [rows stop]. cbn [fst snd parse_tags_loop].
  rewrite E. reflexivity.
Qed.

(** [parse_branches] handles a first line that is a record of its own and
    then the rest. *)
Lemma parse_branches_first_line (line rest : string) (row : list string) (f : string) :
  all_chars (is_not Csv.LF) line = true ->
  Csv.feed_line Csv.default_field_limit " " Csv.parse_reset
                (line ++ String Csv.LF "")
  = Ok (Csv.mkReader Csv.START_RECORD row f) ->
  parse_branches self (line ++ String Csv.LF rest)
  = match parse_branches self rest with
    | Ok vs => Ok (parse_branch self row ++ vs)%list
    | Raised e => Raised e
    end.
Proof.
  intros Hnl H. unfold parse_branches.
  rewrite (reader_first_line line rest row f Hnl H).
  destruct (Csv.reader " " rest) as [rows stop]. cbn [fst snd].
  rewrite !parse_branches_loop_eq. destruct stop; reflexivity.
Qed.

Lemma parse_branch_origin (row : list string) (name : string) (rest : list string) :
  drop_empty_and_star row = ("origin/" ++ name) :: rest ->
  parse_branch self row
  = if String.eqb name "HEAD" then []
    else [mkVCSVersion self ("origin/" ++ name) (PyStr.replace "/" "-" name)].
Proof.
  intros H. unfold parse_branch. rewrite H. cbv beta iota zeta.
  rewrite startswith_append.
  change (PyStr.drop (String.length "origin/") ("origin/" ++ name)) with name.
  rewrite (replace_eqb name "HEAD"); reflexivity.
Qed.

End Listings.

(** X9.  A first line of spaces only (or an empty one) is ignored by both
    parsers: the result is that of the rest of the input. *)
Theorem blank_first_line_is_ignored (self : Backend) (n : nat) (rest : string) :
  parse_tags self (spaces n ++ String Csv.LF rest) = parse_tags self rest
  /\ parse_branches self (spaces n ++ String Csv.LF rest)
     = parse_branches self rest.
Proof.
  destruct (feed_line_blank n) as [k Hk].
  assert (Hnl : all_chars (is_not Csv.LF) (spaces n) = true)
    by (apply all_chars_spaces; reflexivity).
  split.
  - apply (parse_tags_first_line self _ rest _ _ Hnl Hk), drop_empty_repeat.
  - rewrite (parse_branches_first_line self _ rest _ _ Hnl Hk).
    assert (E : parse_branch self (repeat "" k) = []).
    { unfold parse_branch.
      rewrite <- (app_nil_r (repeat "" k)), drop_empty_and_star_repeat.
      reflexivity. }
    rewrite E. destruct (parse_branches self rest); reflexivity.
Qed.

(** X10.  A first line that holds the marker of the current branch and no
    branch name, after any number of spaces, gives no version in
    [parse_branches], which goes on with the rest of the input; the same
    line makes [parse_tags] raise the unpacking error, whatever follows. *)
Theorem marker_only_line (self : Backend) (lead : nat) (rest : string) :
  parse_branches self (spaces lead ++ "*" ++ String Csv.LF rest)
  = parse_branches self rest
  /\ parse_tags self (spaces lead ++ "*" ++ String Csv.LF rest)
     = Raised (ValueError "need more than 1 value to unpack").
Proof.
  pose proof (feed_line_words lead ["*"] true ltac:(discriminate) eq_refl) as F.
  pose proof (words_line_no_newline lead ["*"] eq_refl) as Hnl.
  unfold words_line in F, Hnl. cbn [join_words] in F, Hnl.
  rewrite <- !append_assoc. split.
  - rewrite (parse_branches_first_line self _ rest _ _ Hnl F).
    assert (E : parse_branch self (repeat "" lead ++ ["*"]) = []).
    { unfold parse_branch. rewrite drop_empty_and_star_repeat. reflexivity. }
    rewrite E. destruct (parse_branches self rest); reflexivity.
  - unfold parse_tags. rewrite (reader_first_line _ rest _ _ Hnl F).
    cbn [parse_tags_loop].
    assert (E : drop_empty (repeat "" lead ++ ["*"]) = ["*"]).
    { unfold drop_empty. rewrite filter_app. fold (drop_empty (repeat "" lead)).
      rewrite drop_empty_repeat. reflexivity. }
    destruct (Csv.reader " " rest) as [rows stop]. cbn [fst snd parse_tags_loop].
    rewrite E. reflexivity.
Qed.

(** X15.  Only the space separates columns.  A first line that is one
    column for the reader, for instance a hash and a ref path with a tab
    between them, makes [parse_tags] raise the unpacking error, whatever
    follows. *)
Theorem parse_tags_single_column_line
  (self : Backend) (hash_ ref_ rest : string) :
  is_column (hash_ ++ String "009" ref_) = true ->
  parse_tags self (hash_ ++ String "009" ref_ ++ String Csv.LF rest)
  = Raised (ValueError "need more than 1 value to unpack").
Proof.
  intros H.
  assert (W : forallb is_column [hash_ ++ String "009" ref_] = true)
    by (cbn [forallb]; rewrite H; reflexivity).
  pose proof (feed_line_words 0 [hash_ ++ String "009" ref_] true
                               ltac:(discriminate) W) as F.
  pose proof (words_line_no_newline 0 [hash_ ++ String "009" ref_] W) as Hnl.
  unfold words_line in F, Hnl. cbn [spaces join_words String.append repeat app] in F, Hnl.
  change (hash_ ++ String "009" ref_ ++ String Csv.LF rest)
    with (hash_ ++ String "009" (ref_ ++ String Csv.LF rest)).
  assert (A : hash_ ++ String "009" (ref_ ++ String Csv.LF rest)
              = (hash_ ++ String "009" ref_) ++ String Csv.LF rest).
  { rewrite append_assoc. reflexivity. }
  rewrite A. unfold parse_tags. rewrite (reader_first_line _ rest _ _ Hnl F).
  destruct (Csv.reader " " rest) as [rows stop]. cbn [fst snd parse_tags_loop].
  assert (E : drop_empty [hash_ ++ String "009" ref_] = [hash_ ++ String "009" ref_]).
  { unfold drop_empty. cbn [filter].
    rewrite (is_column_nonempty _ H). reflexivity. }
  rewrite E. reflexivity.
Qed.

Section BranchListing.

Variable self : Backend.

(** The fields of a line of a branch listing. *)
Lemma branch_line_record (e : BranchLine) :
  well_formed_branch_line e = true ->
  all_chars (is_not Csv.LF) (branch_line e) = true
  /\ Csv.feed_line Csv.default_field_limit " " Csv.parse_reset
                   (branch_line e ++ String Csv.LF "")
     = Ok (Csv.mkReader Csv.START_RECORD
             (repeat "" (if current e then 0 else 2) ++ branch_words e)%list "").
Proof.
  unfold well_formed_branch_line, branch_line. intros H.
  apply andb_true_iff in H. destruct H as [Hb Ha].
  assert (W : forallb is_column (branch_words e) = true).
  { unfold branch_words.
    destruct (current e), (alias_of e) as [t|]; cbn [app forallb];
      rewrite Hb, ?Ha; reflexivity. }
  assert (N : branch_words e <> []).
  { unfold branch_words. destruct (current e); discriminate. }
  split; [apply words_line_no_newline; exact W|].
  apply (feed_line_words _ _ true N W).
Qed.

Lemma parse_branch_of_line (e : BranchLine) :
  parse_branch self
    (repeat "" (if current e then 0 else 2) ++ branch_words e)%list
  = if String.eqb (branch_name e) "HEAD" then []
    else [mkVCSVersion self ("origin/" ++ branch_name e)
                       (PyStr.replace "/" "-" (branch_name e))].
Proof.
  apply (parse_branch_origin self _ (branch_name e)
           (drop_empty_and_star
              match alias_of e with
              | Some target => ["->"; target]
              | None => []
              end)).
  rewrite drop_empty_and_star_repeat.
  unfold branch_words. destruct (current e); reflexivity.
Qed.

End BranchListing.

(** X11.  On a listing as [git branch -r] prints it (every line a remote
    branch ["origin/<name>"] after two spaces or after the marker ["* "],
    alias lines with an arrow and a target after it), [parse_branches]
    returns one version for every line whose name is not ["HEAD"], in the
    order of the lines, identified by ["origin/<name>"] and named by the
    name with its slashes replaced by hyphens.  Marker, indentation and
    alias target leave no trace. *)
Theorem parse_branches_remote_listing (self : Backend) (es : list BranchLine) :
  forallb well_formed_branch_line es = true ->
  parse_branches self (branch_listing es)
  = Ok (map (fun e => mkVCSVersion self ("origin/" ++ branch_name e)
                                   (PyStr.replace "/" "-" (branch_name e)))
            (filter (fun e => negb (String.eqb (branch_name e) "HEAD")) es)).
Proof.
  induction es as [|e es IH]; intros H; [reflexivity|].
  cbn [forallb] in H. apply andb_true_iff in H. destruct H as [He Hes].
  destruct (branch_line_record e He) as [Hnl F].
  cbn [branch_listing].
  rewrite (parse_branches_first_line self _ _ _ _ Hnl F), (IH Hes).
  rewrite parse_branch_of_line. cbn [filter].
  destruct (String.eqb (branch_name e) "HEAD"); reflexivity.
Qed.

(** X12.  On plain text (no NUL, no carriage return, no double quote)
    whose lines are no longer than the field limit of the reader,
    [parse_branches] never raises: it returns a list whatever the lines look
    like.  On the same text [parse_tags] can only raise the unpacking error
    ([ValueError]), and does so exactly when some record has a number of
    columns other than two or none. *)
Theorem parsers_on_plain_text (self : Backend) (data : string) :
  all_chars plain_char data = true ->
  lines_fit data = true ->
  (exists clean_branches, parse_branches self data = Ok clean_branches)
  /\ ((exists vcs_tags, parse_tags self data = Ok vcs_tags)
      \/ (exists msg, parse_tags self data = Raised (ValueError msg)))
  /\ ((exists msg, parse_tags self data = Raised (ValueError msg))
      <-> forallb two_or_no_columns (fst (Csv.reader " " data)) = false).
Proof.
  intros Hp Hfit. pose proof (reader_plain data Hp Hfit) as Hstop.
  unfold parse_branches, parse_tags.
  destruct (Csv.reader " " data) as [rows stop]. cbn [fst snd] in *. subst stop.
  split; [|split].
  - rewrite parse_branches_loop_eq. eexists; reflexivity.
  - destruct (forallb two_or_no_columns rows) eqn:F.
    + left. rewrite (parse_tags_loop_ok self rows None [] F). eexists; reflexivity.
    + right. apply (parse_tags_loop_bad self rows None [] F).
  - destruct (forallb two_or_no_columns rows) eqn:F.
    + rewrite (parse_tags_loop_ok self rows None [] F).
      split; [intros [msg H]; discriminate | discriminate].
    + split; [reflexivity|]. intros _.
      apply (parse_tags_loop_bad self rows None [] F).
Qed.

End ListingProps.

(** ** The further statements at work on the scripted host *)

Module MoreExamples.

Import Git Spec GitProps SyncProps ParserProps ListingProps Scripted.

Lemma update_fetches_or_clones_by_status_witness :
  let kept := cloned docs_url [] in
  let missing := fresh [] in
  (attempted "fetch" (log (update project kept)) = true
   /\ attempted "clone" (log (update project kept)) = false)
  /\ (attempted "clone" (log (update project missing)) = true
      /\ attempted "fetch" (log (update project missing)) = false).
Proof.
  cbv zeta. split.
  - split; [reflexivity|].
    apply (proj1 (update_fetches_or_clones_by_status
                    (host := Scripted.host) project (cloned docs_url []))).
    reflexivity.
  - split; [reflexivity|].
    apply (proj2 (update_fetches_or_clones_by_status
                    (host := Scripted.host) project (fresh []))).
    reflexivity.
Defined.

Lemma successful_update_log_witness :
  let kept := cloned docs_url [] in
  outcome (update project kept) = Ok (0%Z, "", "")
  /\ exists sc so se cmd tout terr r1 r2,
      log (update project kept)
      = (log (check_working_dir project kept)
         ++ Run ["git"; "status"] (sc, so, se)
         :: Run cmd (0%Z, tout, terr)
         :: Run ["git"; "submodule"; "sync"] r1
         :: Run ["git"; "submodule"; "update"; "--init"; "--recursive"] r2
         :: [Run ["git"; "reset"; "--hard"; "origin/master"] (0%Z, "", "")])%list
      /\ ((sc = 0%Z /\ cmd = ["git"; "fetch"; "--prune"])
          \/ (sc <> 0%Z
              /\ cmd = ["git"; "clone"; "--recursive"; "--quiet"; docs_url; "."])).
Proof.
  cbv zeta. split; [reflexivity|].
  exact (successful_update_log (host := Scripted.host)
           project (cloned docs_url []) (0%Z, "", "") eq_refl).
Defined.

Lemma update_reads_config_iff_directory_exists_witness :
  path_exists "/checkouts/docs" (fresh []) = false
  /\ removes (log (update project (fresh []))) = false.
Proof.
  split; [reflexivity|].
  apply (proj2 (update_reads_config_iff_directory_exists
                  (host := Scripted.host) project (fresh []))).
  reflexivity.
Defined.

Lemma checkout_resets_to_target_witness :
  let kept := cloned docs_url [] in
  outcome (checkout project (Some "v1.0") kept) = Ok (0%Z, "", "")
  /\ In (Run ["git"; "reset"; "--hard"; "v1.0"; "--"] (0%Z, "", ""))
        (log (checkout project (Some "v1.0") kept)).
Proof.
  cbv zeta.
  pose proof (checkout_resets_to_target (host := Scripted.host)
                project (Some "v1.0") (cloned docs_url [])) as H.
  change (outcome (update project (cloned docs_url []))) with
    (@Ok (Z * string * string) (0%Z, "", "")) in H.
  cbv iota in H.
  rewrite (H 0%Z "" "" (cloned docs_url []) eq_refl).
  split; [reflexivity|]. vm_compute. in_log.
Defined.

Lemma repo_url_changed_and_whitespace_witness :
  let padded := mkBackend "docs" None "/checkouts/docs"
                          " https://example.org/docs.git" in
  outcome (repo_url_changed project (cloned docs_url [])) = Ok false
  /\ outcome (repo_url_changed padded (cloned docs_url [])) = Ok true.
Proof.
  cbv zeta. split.
  - apply (proj1 (repo_url_changed_and_whitespace (host := Scripted.host)
                    project (cloned docs_url []) 0%Z
                    (docs_url ++ String Csv.LF "") "" (cloned docs_url [])
                    eq_refl)
                 "" (String Csv.LF "")); reflexivity.
  - apply (proj2 (repo_url_changed_and_whitespace (host := Scripted.host)
                    (mkBackend "docs" None "/checkouts/docs"
                               " https://example.org/docs.git")
                    (cloned docs_url []) 0%Z
                    (docs_url ++ String Csv.LF "") "" (cloned docs_url [])
                    eq_refl)).
    vm_compute. discriminate.
Defined.

Lemma parse_branches_versions_are_clean_witness :
  Forall (fun v => identifier v <> "origin/HEAD"
                   /\ all_chars (is_not "/") (verbose_name v) = true)
         [mkVCSVersion project "origin/release/2.0.0" "release-2.0.0"].
Proof.
  pose proof (parse_branches_versions_are_clean
                project ("  origin/release/2.0.0" ++ String Csv.LF "")
                [mkVCSVersion project "origin/release/2.0.0" "release-2.0.0"]
                eq_refl) as H.
  inversion H as [|v vs (_ & _ & _ & Hh & Hs) _]; subst.
  constructor; [split; assumption | constructor].
Defined.

Lemma parse_tags_succeeds_iff_two_columns_witness :
  let data := "c0288a17 refs/tags/2.0.2 extra" ++ String Csv.LF "" in
  forallb two_or_no_columns (fst (Csv.reader " " data)) = false
  /\ exists msg, parse_tags project data = Raised (ValueError msg).
Proof.
  cbv zeta. split; [reflexivity|].
  apply (proj1 (proj2 (parse_tags_succeeds_iff_two_columns
                         project
                         ("c0288a17 refs/tags/2.0.2 extra" ++ String Csv.LF "")))).
  reflexivity.
Defined.

Lemma parse_branches_remote_listing_witness :
  forallb well_formed_branch_line docstring_branches = true
  /\ parse_branches project (branch_listing docstring_branches)
     = Ok [mkVCSVersion project "origin/2.0.X" "2.0.X";
           mkVCSVersion project "origin/develop" "develop";
           mkVCSVersion project "origin/master" "master";
           mkVCSVersion project "origin/release/2.0.0" "release-2.0.0";
           mkVCSVersion project "origin/release/2.1.0" "release-2.1.0"].
Proof.
  split; [reflexivity|].
  apply (parse_branches_remote_listing project docstring_branches). reflexivity.
Defined.

Lemma parsers_on_plain_text_witness :
  let data := "  origin/master" ++ String Csv.LF "* feature" in
  all_chars plain_char data = true
  /\ lines_fit data = true
  /\ exists clean_branches, parse_branches project data = Ok clean_branches.
Proof.
  cbv zeta. split; [reflexivity|]. split; [reflexivity|].
  apply (proj1 (parsers_on_plain_text
                  project ("  origin/master" ++ String Csv.LF "* feature")
                  eq_refl eq_refl)).
Defined.

Lemma update_raises_only_import_or_removal_errors_witness :
  let locked := mkMachine true "https://example.org/other.git" [] true in
  outcome (update project locked) = Raised (OSError "Permission denied")
  /\ In (Rmtree "/checkouts/docs" (Raised (OSError "Permission denied")))
        (log (update project locked)).
Proof.
  cbv zeta. split; [reflexivity|].
  destruct (update_raises_only_import_or_removal_errors
              (host := Scripted.host) project
              (mkMachine true "https://example.org/other.git" [] true)
              (OSError "Permission denied") eq_refl)
    as [(code & _ & [H|H])|H]; [discriminate H | discriminate H | exact H].
Defined.

Lemma checkout_resets_twice_witness :
  let renamed := cloned docs_url [("reset", (128%Z, ""))] in
  outcome (checkout project (Some "v1.0") renamed) = Ok (128%Z, "", "")
  /\ exists before t1,
      log (checkout project (Some "v1.0") renamed)
      = (before
         ++ Run ["git"; "reset"; "--hard"; "origin/master"] t1
         :: (if Z.eqb (exit_code t1) 0 then []
             else [Warning (failed_to_get_code project "reset" (exit_code t1))])
         ++ [Run ["git"; "reset"; "--hard"; "v1.0"; "--"] (128%Z, "", "")])%list.
Proof.
  cbv zeta. split; [reflexivity|].
  apply (checkout_resets_twice (host := Scripted.host)
           project (Some "v1.0") (cloned docs_url [("reset", (128%Z, ""))])
           (128%Z, "", "")).
  reflexivity.
Defined.

Lemma parse_tags_single_column_line_witness :
  is_column ("c0288a17" ++ String "009" "refs/tags/2.0.2") = true
  /\ parse_tags project ("c0288a17" ++ String "009" "refs/tags/2.0.2"
                         ++ String Csv.LF "")
     = Raised (ValueError "need more than 1 value to unpack").
Proof.
  split; [reflexivity|].
  apply (parse_tags_single_column_line project "c0288a17" "refs/tags/2.0.2" "").
  reflexivity.
Defined.

End MoreExamples.

(** ** Stripping, stated without [strip] *)

Module TrimProps.

Import Git Spec PyStrProps StripProps GitProps.

Lemma isspace_is_whitespace (c : ascii) : PyStr.isspace c = is_whitespace c.
Proof. destruct c as [[] [] [] [] [] [] [] []]; reflexivity. Qed.

Lemma all_whitespace_isspace (s : string) :
  all_chars is_whitespace s = all_chars PyStr.isspace s.
Proof.
  induction s as [|c s IH]; [reflexivity|].
  cbn [all_chars]. now rewrite IH, isspace_is_whitespace.
Qed.

Lemma rstrip_of_trimmed (s : string) :
  ends_trimmed s = true -> PyStr.rstrip s = s.
Proof.
  induction s as [|c s IH]; [reflexivity|].
  destruct s as [|d s].
  - cbn [ends_trimmed PyStr.rstrip]. rewrite isspace_is_whitespace. intros H.
    apply negb_true_iff in H. now rewrite H.
  - intros H. change (ends_trimmed (String c (String d s)))
      with (ends_trimmed (String d s)) in H.
    change (PyStr.rstrip (String c (String d s)))
      with (match PyStr.rstrip (String d s) with
            | EmptyString => if PyStr.isspace c then EmptyString
                             else String c EmptyString
            | t => String c t
            end).
    rewrite (IH H). reflexivity.
Qed.

Lemma strip_of_trimmed (s : string) : trimmed s = true -> PyStr.strip s = s.
Proof.
  unfold trimmed, PyStr.strip. intros H.
  apply andb_true_iff in H. destruct H as [Hs He].
  rewrite (lstrip_of_clean s).
  - exact (rstrip_of_trimmed s He).
  - destruct s as [|c s]; [reflexivity|]. cbn [starts_clean].
    rewrite isspace_is_whitespace. exact Hs.
Qed.

Lemma lstrip_split (s : string) :
  exists ws, all_chars is_whitespace ws = true /\ s = ws ++ PyStr.lstrip s.
Proof.
  induction s as [|c s (ws & Hws & E)]; [exists ""; split; reflexivity|].
  cbn [PyStr.lstrip]. destruct (PyStr.isspace c) eqn:Hc.
  - exists (String c ws). cbn [all_chars String.append].
    rewrite <- isspace_is_whitespace, Hc, Hws, <- E. split; reflexivity.
  - exists "". split; reflexivity.
Qed.

Lemma rstrip_split (s : string) :
  exists ws, all_chars is_whitespace ws = true /\ s = PyStr.rstrip s ++ ws.
Proof.
  induction s as [|c s (ws & Hws & E)]; [exists ""; split; reflexivity|].
  cbn [PyStr.rstrip]. destruct (PyStr.rstrip s) as [|d t] eqn:R.
  - cbn [String.append] in E. subst s.
    destruct (PyStr.isspace c) eqn:Hc.
    + exists (String c ws). cbn [all_chars String.append].
      rewrite <- isspace_is_whitespace, Hc, Hws. split; reflexivity.
    + exists ws. split; [exact Hws | reflexivity].
  - exists ws. split; [exact Hws|]. cbn [String.append] in E |- *.
    f_equal. exact E.
Qed.

Lemma rstrip_ends_trimmed (s : string) : ends_trimmed (PyStr.rstrip s) = true.
Proof.
  induction s as [|c s IH]; [reflexivity|].
  cbn [PyStr.rstrip]. destruct (PyStr.rstrip s) as [|d t] eqn:R.
  - destruct (PyStr.isspace c) eqn:Hc; [reflexivity|].
    cbn [ends_trimmed]. rewrite <- isspace_is_whitespace, Hc. reflexivity.
  - exact IH.
Qed.

Lemma strip_trimmed (s : string) : trimmed (PyStr.strip s) = true.
Proof.
  unfold trimmed, PyStr.strip.
  rewrite (rstrip_ends_trimmed (PyStr.lstrip s)), andb_true_r.
  pose proof (rstrip_keeps_clean _ (lstrip_starts_clean s)) as H.
  destruct (PyStr.rstrip (PyStr.lstrip s)) as [|c t];
    [reflexivity|].
  cbn [starts_clean] in H. rewrite <- isspace_is_whitespace. exact H.
Qed.

(** Every string is a trimmed core between two runs of whitespace. *)
Lemma trimmed_core_exists (s : string) :
  exists before core after,
    all_chars is_whitespace before = true
    /\ all_chars is_whitespace after = true
    /\ trimmed core = true
    /\ s = before ++ core ++ after.
Proof.
  destruct (lstrip_split s) as (ws1 & H1 & E1).
  destruct (rstrip_split (PyStr.lstrip s)) as (ws2 & H2 & E2).
  exists ws1, (PyStr.strip s), ws2.
  split; [exact H1|]. split; [exact H2|]. split; [apply strip_trimmed|].
  unfold PyStr.strip. rewrite <- E2. exact E1.
Qed.

(** [strip] returns that core. *)
Lemma strip_core (before core after : string) :
  all_chars is_whitespace before = true ->
  all_chars is_whitespace after = true ->
  trimmed core = true ->
  PyStr.strip (before ++ core ++ after) = core.
Proof.
  intros Hb Ha Hc. rewrite all_whitespace_isspace in Hb, Ha.
  apply strip_surrounded; [exact Hb | exact Ha | apply strip_of_trimmed, Hc].
Qed.

Lemma append_slash_differs (u : string) : u ++ "/" <> u.
Proof.
  intros E. apply (f_equal String.length) in E.
  rewrite length_append in E. cbn in E. lia.
Qed.

Section Methods.

Context {World : Type} {host : Host World}.

(** C10, as amended.  [repo_url_changed] takes the stdout of the
    origin-URL lookup, leaves out the whitespace at both of its ends, and
    answers whether what remains differs from the requested URL; the exit
    code of the lookup plays no part.  Every stdout is such a core between
    two runs of whitespace.  So a stdout that is empty or all whitespace
    (an unreadable configuration) counts as changed whenever the requested
    URL is not empty; a stored URL with one more slash counts as changed;
    and whenever the core differs from the requested URL and the directory
    exists, the working-directory check calls [rmtree] on it. *)
Theorem repo_url_changed_compares_stripped_stdout
  (self : Backend) (w : World) (code : Z) (out err : string) (w' : World) :
  popen (working_dir self) (env self)
        ["git"; "config"; "-f"; PyStr.pjoin (working_dir self) ".git/config";
         "--get"; "remote.origin.url"] w
  = ((code, out, err), w') ->
  (exists before core after,
      all_chars is_whitespace before = true
      /\ all_chars is_whitespace after = true
      /\ trimmed core = true
      /\ out = before ++ core ++ after)
  /\ (forall before core after,
         all_chars is_whitespace before = true ->
         all_chars is_whitespace after = true ->
         trimmed core = true ->
         out = before ++ core ++ after ->
         outcome (repo_url_changed self w)
         = Ok (negb (String.eqb core (repo_url self)))
         /\ (core = "" -> repo_url self <> "" ->
             outcome (repo_url_changed self w) = Ok true)
         /\ (core = repo_url self ++ "/" ->
             outcome (repo_url_changed self w) = Ok true)
         /\ (core <> repo_url self ->
             path_exists (working_dir self) w = true ->
             In (Rmtree (working_dir self) (fst (rmtree (working_dir self) w')))
                (log (check_working_dir self w)))).
Proof.
  intros H. split; [apply trimmed_core_exists|].
  intros before core after Hb Ha Hc ->.
  pose proof (strip_core before core after Hb Ha Hc) as S.
  assert (R : outcome (repo_url_changed self w)
              = Ok (negb (String.eqb core (repo_url self)))).
  { step. unfold git_config_get_url. rewrite H. step. rewrite S. reflexivity. }
  split; [exact R|]. rewrite R. split; [|split].
  - intros -> Hne.
    destruct (String.eqb_spec "" (repo_url self)) as [E|_];
      [congruence | reflexivity].
  - intros ->.
    destruct (String.eqb_spec (repo_url self ++ "/") (repo_url self)) as [E|_];
      [|reflexivity].
    exfalso. exact (append_slash_differs _ E).
  - intros Hne Hex. step. rewrite Hex. step.
    unfold git_config_get_url. rewrite H. step. rewrite S.
    apply String.eqb_neq in Hne. rewrite Hne. step.
    destruct (rmtree (working_dir self) w') as [[[]|e] w2]; step; cbn; auto.
Qed.

End Methods.

Import Scripted.

Lemma repo_url_changed_compares_stripped_stdout_witness :
  let m := cloned "https://example.org/docs.git/" [] in
  outcome (repo_url_changed project m) = Ok true
  /\ In (Rmtree "/checkouts/docs" (Ok tt)) (log (check_working_dir project m))
  /\ outcome (repo_url_changed project (fresh [])) = Ok true.
Proof.
  cbv zeta.
  destruct (repo_url_changed_compares_stripped_stdout
              (host := Scripted.host) project (fresh [])
              1%Z "" "cannot read config" (fresh []) eq_refl)
    as (_ & Hempty).
  destruct (Hempty "" "" "" eq_refl eq_refl eq_refl eq_refl)
    as (_ & Hblank & _).
  destruct (repo_url_changed_compares_stripped_stdout
              (host := Scripted.host)
              project (cloned "https://example.org/docs.git/" [])
              0%Z ("https://example.org/docs.git/" ++ String Csv.LF "") ""
              (cloned "https://example.org/docs.git/" []) eq_refl)
    as (_ & H).
  destruct (H "" "https://example.org/docs.git/" (String Csv.LF "")
              eq_refl eq_refl eq_refl eq_refl) as (_ & _ & Hslash & Hrm).
  split; [|split].
  - apply Hslash. reflexivity.
  - apply Hrm; [discriminate | reflexivity].
  - apply Hblank; [reflexivity | discriminate].
Defined.

(** C10, as stated, fails.  With an empty requested URL, a lookup that
    cannot read any configuration (non-zero exit, nothing on stdout)
    compares as unchanged. *)
Lemma empty_url_and_unreadable_config_compare_unchanged :
  repo_url no_url = ""
  /\ fst (popen (working_dir no_url) (env no_url) (git_config_get_url no_url)
                (fresh []))
     = (1%Z, "", "cannot read config")
  /\ outcome (repo_url_changed no_url (fresh [])) = Ok false.
Proof. repeat split. Defined.

End TrimProps.

(** ** The parsers line by line *)

Module LineProps.

Import Git Spec Csv PyStrProps CsvProps ReaderProps PlainProps GitProps
       ListingProps.

Local Abbreviation limit := default_field_limit.
Local Abbreviation feed := (Csv.feed default_field_limit " "%char).
Local Abbreviation feed_line := (Csv.feed_line default_field_limit " "%char).

(** One plain character: a space closes the field, any other character is
    added to it. *)
Lemma process_token_char (r : Reader) (c : ascii) :
  unquoted r = true ->
  body_char c = true ->
  (Z.of_nat (String.length (field r)) < limit)%Z ->
  parse_process_char limit " " r c
  = Ok (if Ascii.eqb c " "
        then mkReader START_FIELD (fields r ++ [field r])%list ""
        else mkReader IN_FIELD (fields r) (field r ++ String c "")).
Proof.
  intros Hu Hc Hl.
  destruct (body_char_inv c Hc) as (Hnul & Hcr & Hq & Hlf).
  destruct r as [st fs f]. cbn [field fields] in *.
  assert (A : parse_add_char limit (mkReader st fs f) c
              = Ok (mkReader st fs (f ++ String c ""))).
  { unfold parse_add_char. cbn [field state fields].
    destruct (Z.leb_spec limit (Z.of_nat (String.length f))); [lia | reflexivity]. }
  unfold unquoted in Hu. cbn [state] in Hu.
  destruct st; try discriminate Hu;
    unfold parse_process_char, start_field, add_char_then, is_eol;
    cbn [state]; rewrite ?Hnul, ?Hcr, ?Hq, ?Hlf; cbn [orb];
    destruct (Ascii.eqb c " "); try reflexivity;
    rewrite A; reflexivity.
Qed.

(** The fields the reader has after a plain text are its space-separated
    tokens, the first of them added to the field it was reading. *)
Lemma feed_tokens (body : string) :
  forall r,
    unquoted r = true ->
    all_chars body_char body = true ->
    (Z.of_nat (String.length (field r) + String.length body) <= limit)%Z ->
    exists r' hd tl,
      tokens body = hd :: tl
      /\ feed r body = Ok r'
      /\ (fields r' ++ [field r'])%list = (fields r ++ (field r ++ hd)%string :: tl)%list
      /\ (state r' = START_RECORD -> state r = START_RECORD /\ body = "")
      /\ unquoted r' = true.
Proof.
  unfold tokens.
  induction body as [|c body IH]; intros r Hu Hb Hl.
  - exists r, "", []. rewrite append_nil_r. repeat split; auto.
  - cbn [all_chars] in Hb. apply andb_true_iff in Hb. destruct Hb as [Hc Hb].
    cbn [String.length] in Hl.
    pose proof (process_token_char r c Hu Hc ltac:(lia)) as P.
    destruct (body_char_inv c Hc) as (Hnul & _).
    cbn [Csv.feed PyStr.split]. rewrite Hnul, P.
    destruct (Ascii.eqb c " ") eqn:Hsp.
    + destruct (IH (mkReader START_FIELD (fields r ++ [field r])%list "")
                   eq_refl Hb ltac:(cbn; lia))
        as (r' & hd & tl & E & F & T & S & U).
      exists r', "", (hd :: tl). rewrite E.
      split; [reflexivity|]. split; [exact F|]. split; [|split].
      * rewrite T. cbn [field fields String.append].
        rewrite <- app_assoc, append_nil_r. reflexivity.
      * intros Hs. destruct (S Hs) as [Hbad _]. discriminate Hbad.
      * exact U.
    + destruct (IH (mkReader IN_FIELD (fields r) (field r ++ String c ""))
                   eq_refl Hb
                   ltac:(cbn [field]; rewrite length_append; cbn; lia))
        as (r' & hd & tl & E & F & T & S & U).
      exists r', (String c hd), tl. rewrite E.
      split; [reflexivity|]. split; [exact F|]. split; [|split].
      * rewrite T. cbn [field fields]. rewrite append_assoc. reflexivity.
      * intros Hs. destruct (S Hs) as [Hbad _]. discriminate Hbad.
      * exact U.
Qed.

(** A plain line that is not empty is one record: its tokens. *)
Lemma feed_line_tokens (line : string) (newline : bool) :
  line <> "" ->
  all_chars body_char line = true ->
  (Z.of_nat (String.length line) <= limit)%Z ->
  feed_line parse_reset (line ++ (if newline then String LF "" else ""))
  = Ok (mkReader START_RECORD (tokens line) "").
Proof.
  intros Hne Hb Hl. unfold Csv.feed_line. rewrite feed_append.
  destruct (feed_tokens line parse_reset eq_refl Hb ltac:(cbn; lia))
    as (r' & hd & tl & E & F & T & S & U).
  rewrite F, E. cbn [parse_reset fields field app String.append] in T.
  destruct r' as [st fs f]. cbn [fields field state] in *.
  unfold unquoted in U. cbn [state] in U.
  destruct st; try discriminate U.
  - destruct (S eq_refl) as [_ Hbad]. contradiction.
  - destruct newline;
      (transitivity (Ok (mkReader START_RECORD (fs ++ [f])%list ""));
       [reflexivity | rewrite T; reflexivity]).
  - destruct newline;
      (transitivity (Ok (mkReader START_RECORD (fs ++ [f])%list ""));
       [reflexivity | rewrite T; reflexivity]).
Qed.

Lemma body_char_no_newline (s : string) :
  all_chars body_char s = true -> all_chars (is_not LF) s = true.
Proof.
  apply all_chars_weaken. intros c H. unfold body_char in H.
  apply andb_true_iff in H. apply H.
Qed.

Lemma readlines_from_cons (cur : string) (c : ascii) (s : string) :
  PyStr.readlines_from cur (String c s)
  = if Ascii.eqb c "010"
    then (cur ++ String c "") :: PyStr.readlines_from "" s
    else PyStr.readlines_from (cur ++ String c "") s.
Proof. reflexivity. Qed.

(** The lines of a text that follows whole lines are read afresh. *)
Lemma readlines_from_complete (before rest : string) :
  forall cur,
    before <> "" ->
    complete_lines before = true ->
    PyStr.readlines_from cur (before ++ rest)
    = (PyStr.readlines_from cur before ++ PyStr.readlines_from "" rest)%list.
Proof.
  induction before as [|c before IH]; intros cur Hne Hc; [congruence|].
  destruct before as [|d before].
  - cbn [complete_lines] in Hc. apply Ascii.eqb_eq in Hc. subst c.
    reflexivity.
  - change (complete_lines (String c (String d before)))
      with (complete_lines (String d before)) in Hc.
    change (String c (String d before) ++ rest)
      with (String c (String d before ++ rest)).
    rewrite !readlines_from_cons.
    destruct (Ascii.eqb c "010").
    + rewrite (IH "" ltac:(discriminate) Hc). reflexivity.
    + apply (IH _ ltac:(discriminate) Hc).
Qed.

Lemma readlines_complete (before rest : string) :
  complete_lines before = true ->
  PyStr.readlines (before ++ rest)
  = (PyStr.readlines before ++ PyStr.readlines rest)%list.
Proof.
  intros Hc. unfold PyStr.readlines. destruct before as [|c before].
  - reflexivity.
  - apply readlines_from_complete; [discriminate | exact Hc].
Qed.

(** Plain lines are records of their own; the reader then starts afresh. *)
Lemma records_after_plain (lines more : list string) :
  Forall (fun line =>
            exists body newline,
              line = body ++ (if newline : bool then String LF "" else "")
              /\ all_chars body_char body = true) lines ->
  forallb (fun line => (Z.of_nat (String.length line) <=? limit)%Z) lines = true ->
  Csv.records limit " " parse_reset (lines ++ more)
  = ((fst (Csv.records limit " " parse_reset lines)
      ++ fst (Csv.records limit " " parse_reset more))%list,
     snd (Csv.records limit " " parse_reset more)).
Proof.
  induction lines as [|l lines IH]; intros HF Hfit.
  - cbn [app Csv.records PyStr.nonempty field parse_reset state state_eqb orb fst].
    destruct (Csv.records limit " " parse_reset more); reflexivity.
  - inversion HF as [|? ? (body & newline & -> & Hb) HF']; subst.
    cbn [forallb] in Hfit. apply andb_true_iff in Hfit. destruct Hfit as [Hl Hfit].
    apply Z.leb_le in Hl. rewrite length_append in Hl.
    destruct (feed_line_plain body newline Hb ltac:(lia)) as (r' & E & Hs).
    cbn [app Csv.records]. rewrite E, Hs. cbn [state_eqb].
    rewrite (IH HF' Hfit).
    destruct (Csv.records limit " " parse_reset lines) as [rows err].
    reflexivity.
Qed.

(** After plain whole lines the reader delivers their records and then
    those of the rest. *)
Lemma reader_after_plain (before rest : string) :
  all_chars plain_char before = true ->
  lines_fit before = true ->
  complete_lines before = true ->
  reader " " (before ++ rest)
  = ((fst (reader " " before) ++ fst (reader " " rest))%list,
     snd (reader " " rest))
  /\ snd (reader " " before) = None.
Proof.
  intros Hp Hfit Hc. split; [|exact (reader_plain before Hp Hfit)].
  unfold reader. rewrite (readlines_complete before rest Hc).
  apply records_after_plain; [|exact Hfit].
  apply readlines_from_bodies; [reflexivity | exact Hp].
Qed.

(** A plain line and what follows it. *)
Lemma reader_line (line : string) (after : option string) :
  line <> "" ->
  all_chars body_char line = true ->
  (Z.of_nat (String.length line) <= limit)%Z ->
  reader " " (line ++ line_end after)
  = (tokens line :: fst (reader " " (text_after after)),
     snd (reader " " (text_after after))).
Proof.
  intros Hne Hb Hl. destruct after as [rest|]; cbn [line_end text_after].
  - apply (reader_first_line line rest (tokens line) "").
    + exact (body_char_no_newline line Hb).
    + exact (feed_line_tokens line true Hne Hb Hl).
  - rewrite append_nil_r. unfold reader, PyStr.readlines.
    rewrite (readlines_from_last line "" (body_char_no_newline line Hb)).
    cbn [String.append].
    destruct line as [|c line]; [congruence|]. cbn [PyStr.nonempty Csv.records].
    pose proof (feed_line_tokens (String c line) false ltac:(discriminate) Hb Hl) as F.
    rewrite append_nil_r in F. rewrite F. reflexivity.
Qed.

Section Branches.

Variable self : Backend.

Lemma parse_branches_eq (data : string) :
  parse_branches self data
  = match snd (reader " " data) with
    | None => Ok (flat_map (parse_branch self) (fst (reader " " data)))
    | Some e => Raised e
    end.
Proof.
  unfold parse_branches. destruct (reader " " data) as [rows stop].
  rewrite parse_branches_loop_eq. destruct stop; reflexivity.
Qed.

(** C5, as amended.  Take a line of the input of [parse_branches] that
    comes after whole lines of plain text (no NUL, no carriage return, no
    double quote, each line within the field limit of the reader) and is
    itself such a line.  If its first space-separated token that is neither
    empty nor ["*"] is ["origin/"] followed by a name, the line gives
    exactly one version, placed after those of the lines before it and
    before those of the text after it, identified by that token and named
    by the name with every slash replaced by a hyphen; unless the name is
    ["HEAD"], when the line gives nothing.  If the reader fails on the text
    after the line, [parse_branches] raises that error. *)
Theorem parse_branches_strips_origin_and_skips_head
  (before line : string) (after : option string) (name : string)
  (rest : list string) :
  all_chars plain_char before = true ->
  lines_fit before = true ->
  complete_lines before = true ->
  all_chars body_char line = true ->
  (Z.of_nat (String.length line) <= Csv.default_field_limit)%Z ->
  drop_empty_and_star (tokens line) = ("origin/" ++ name) :: rest ->
  exists earlier,
    parse_branches self before = Ok earlier
    /\ parse_branches self (before ++ line ++ line_end after)
       = match parse_branches self (text_after after) with
         | Ok later =>
             Ok (earlier
                 ++ (if String.eqb name "HEAD" then []
                     else [mkVCSVersion self ("origin/" ++ name)%string
                                        (PyStr.replace "/" "-" name)])
                 ++ later)%list
         | Raised e => Raised e
         end.
Proof.
  intros Hp Hfit Hc Hb Hl Ht.
  assert (Hne : line <> "") by (intros ->; discriminate Ht).
  destruct (reader_after_plain before (line ++ line_end after) Hp Hfit Hc)
    as [R Hstop].
  exists (flat_map (parse_branch self) (fst (reader " " before))).
  split; [rewrite parse_branches_eq, Hstop; reflexivity|].
  rewrite (parse_branches_eq (before ++ line ++ line_end after)), R.
  rewrite (reader_line line after Hne Hb Hl). cbn [fst snd].
  rewrite (parse_branches_eq (text_after after)).
  destruct (snd (reader " " (text_after after))); [reflexivity|].
  rewrite flat_map_app. cbn [flat_map].
  rewrite (parse_branch_origin self (tokens line) name rest Ht).
  reflexivity.
Qed.

End Branches.

Import Scripted.

Lemma parse_branches_strips_origin_and_skips_head_witness :
  let nl := String LF "" in
  let before := "  origin/2.0.X" ++ nl ++ "  origin/HEAD -> origin/master" ++ nl in
  parse_branches project
    (before ++ "  origin/release/2.0.0" ++ String LF ("  origin/develop" ++ nl))
  = Ok [mkVCSVersion project "origin/2.0.X" "2.0.X";
        mkVCSVersion project "origin/release/2.0.0" "release-2.0.0";
        mkVCSVersion project "origin/develop" "develop"]
  /\ parse_branches project
       (before ++ "* origin/HEAD -> origin/master" ++ "")
     = Ok [mkVCSVersion project "origin/2.0.X" "2.0.X"].
Proof.
  cbv zeta. split.
  - destruct (parse_branches_strips_origin_and_skips_head project
                ("  origin/2.0.X" ++ String LF ""
                 ++ "  origin/HEAD -> origin/master" ++ String LF "")
                "  origin/release/2.0.0"
                (Some ("  origin/develop" ++ String LF ""))
                "release/2.0.0" []
                eq_refl eq_refl eq_refl eq_refl
                ltac:(vm_compute; discriminate) eq_refl)
      as (earlier & E & H).
    cbn [line_end text_after] in H. rewrite H.
    vm_compute in E. injection E as <-. reflexivity.
  - destruct (parse_branches_strips_origin_and_skips_head project
                ("  origin/2.0.X" ++ String LF ""
                 ++ "  origin/HEAD -> origin/master" ++ String LF "")
                "* origin/HEAD -> origin/master"
                None "HEAD" ["->"; "origin/master"]
                eq_refl eq_refl eq_refl eq_refl
                ltac:(vm_compute; discriminate) eq_refl)
      as (earlier & E & H).
    cbn [line_end text_after] in H. rewrite H.
    vm_compute in E. injection E as <-. reflexivity.
Defined.

(** C5, as stated, fails.  After a line that opens a double quote, the
    line [origin/master], whose one token starts with ["origin/"], is read
    as part of a quoted field: no version named [master] is returned. *)
Lemma quoted_line_is_no_record :
  let data := String quotechar (String LF ("origin/master" ++ String LF "")) in
  drop_empty_and_star (tokens "origin/master") = ["origin/" ++ "master"]
  /\ parse_branches project data
     = Ok [mkVCSVersion project
             (String LF ("origin/master" ++ String LF ""))
             (String LF ("origin-master" ++ String LF ""))].
Proof. split; reflexivity. Defined.

End LineProps.
